(** * rag-simple: a shallow embedding of [app.py]

    The retrieval pipeline of [app.py] is embedded function by function:
    [extract_text_from_pdf], [process_documents], [store_documents],
    [retrieve_documents], [check_llama_server], [query_llama] and
    [rag_pipeline].  Python exceptions are explicit outcomes, the mutable
    pieces of the process (standard output, the collection, the uuid source,
    the HTTP requests sent) are threaded through a state-and-exception monad,
    and everything the program asks of a library or of the outside (pdfplumber,
    the file system, the collection's similarity search, the HTTP backend) is
    read from a [World]. *)

From Stdlib Require Import String Ascii List Bool Arith ZArith QArith Lia.
From Stdlib Require Import DecimalString DecimalNat.
Import ListNotations.

Local Close Scope Q_scope.
Local Open Scope string_scope.
Local Open Scope list_scope.
Local Open Scope nat_scope.

(* ===================================================================== *)
(** ** Python strings *)
(* ===================================================================== *)

(** A Python [str] is a [string] whose characters are the code points below
    256. *)
Module Py.

Definition LF : ascii := ascii_of_nat 10.
Definition nl : string := String LF EmptyString.

(** [str.isspace] on one character, for the code points below 256:
    TAB..CR, FS..US, SPACE, NEL and NBSP. *)
Definition isspace (c : ascii) : bool :=
  let n := nat_of_ascii c in
  ((9 <=? n) && (n <=? 13)) || ((28 <=? n) && (n <=? 32))
  || (n =? 133) || (n =? 160).

Fixpoint lstrip (s : string) : string :=
  match s with
  | EmptyString => EmptyString
  | String c r => if isspace c then lstrip r else s
  end.

Fixpoint rstrip (s : string) : string :=
  match s with
  | EmptyString => EmptyString
  | String c r =>
      match rstrip r with
      | EmptyString => if isspace c then EmptyString else String c EmptyString
      | r' => String c r'
      end
  end.

(** [s.strip()] *)
Definition strip (s : string) : string := rstrip (lstrip s).

(** Truth value of a [str]: non-empty. *)
Definition truthy (s : string) : bool :=
  match s with EmptyString => false | _ => true end.

(** [s.split(sep)] for a one-character separator. *)
Fixpoint split (sep : ascii) (s : string) : list string :=
  match s with
  | EmptyString => [EmptyString]
  | String c r =>
      if Ascii.eqb c sep then EmptyString :: split sep r
      else match split sep r with
           | h :: t => String c h :: t
           | [] => [String c EmptyString]
           end
  end.

(** [sep.join(l)] *)
Definition join (sep : string) (l : list string) : string :=
  String.concat sep l.

(** [s.replace(old, new)] for a non-empty [old]: the occurrences of [old]
    are found from the left and do not overlap; [skip] counts the
    characters of a match still to be dropped. *)
Fixpoint replace_from (old new : string) (skip : nat) (s : string) : string :=
  match s with
  | EmptyString => EmptyString
  | String c r =>
      match skip with
      | S k => replace_from old new k r
      | O =>
          if prefix old s
          then new ++ replace_from old new (String.length old - 1) r
          else String c (replace_from old new 0 r)
      end
  end.

Definition replace (old new s : string) : string := replace_from old new 0 s.

(** [s.endswith(suffix)] *)
Definition endswith (s suffix : string) : bool :=
  let n := String.length s in
  let m := String.length suffix in
  (m <=? n) && String.eqb (substring (n - m) m s) suffix.

(** [sub in s] for two strings. *)
Fixpoint contains (sub s : string) : bool :=
  prefix sub s ||
  match s with
  | EmptyString => false
  | String _ r => contains sub r
  end.

(** [str(n)] and [f"{n}"] for a non-negative [int]. *)
Definition str_of_nat (n : nat) : string :=
  NilZero.string_of_uint (Nat.to_uint n).

(** Number of occurrences of a character. *)
Fixpoint count (c : ascii) (s : string) : nat :=
  match s with
  | EmptyString => 0
  | String d r => (if Ascii.eqb d c then 1 else 0) + count c r
  end.

End Py.

(* ===================================================================== *)
(** ** Exceptions, outcomes and the process state *)
(* ===================================================================== *)

(** The exception classes the program meets.  [RequestsJSONDecodeError] is
    [requests.exceptions.JSONDecodeError], which derives both from
    [RequestException] and from [ValueError]. *)
Inductive ExnClass : Type :=
| RequestException | ConnectionError | Timeout | HTTPError
| RequestsJSONDecodeError
| ValueError | JSONDecodeError
| KeyError | TypeError | AttributeError | IndexError
| DuplicateIDError
| OtherException.

Record Exn : Type := mkExn { exn_class : ExnClass; exn_msg : string }.

(** [isinstance(e, requests.exceptions.RequestException)] *)
Definition is_RequestException (e : Exn) : bool :=
  match exn_class e with
  | RequestException | ConnectionError | Timeout | HTTPError
  | RequestsJSONDecodeError => true
  | _ => false
  end.

(** [isinstance(e, ValueError)] *)
Definition is_ValueError (e : Exn) : bool :=
  match exn_class e with
  | ValueError | JSONDecodeError | RequestsJSONDecodeError => true
  | _ => false
  end.

(** [isinstance(e, Exception)]: every class above derives from it.  What
    derives from [BaseException] only ([KeyboardInterrupt], [SystemExit]) is
    an interruption of the process, not a fault of a call, and is not
    modelled. *)
Definition is_Exception (e : Exn) : bool := true.

Inductive outcome (A : Type) : Type :=
| Returned (a : A)
| Raised (e : Exn).
Arguments Returned {A} a.
Arguments Raised {A} e.

(** JSON values as [response.json()] hands them to Python: [None], [bool],
    [int], [float], [str], [list] and [dict] (string keys, first binding
    wins).  A [float] is carried as the decimal it is written as. *)
#[warnings="-register-all"]
Inductive json : Type :=
| JNull
| JBool (b : bool)
| JInt (z : Z)
| JFloat (q : Q)
| JStr (s : string)
| JArr (l : list json)
| JObj (kv : list (string * json)).

Fixpoint assoc {A : Type} (k : string) (kv : list (string * A)) : option A :=
  match kv with
  | [] => None
  | (k', v) :: r => if String.eqb k k' then Some v else assoc k r
  end.

(** pdfplumber: what [page.extract_text(x_tolerance=3, y_tolerance=3)] gives
    for a page (a text, [None], or a fault). *)
Record Page : Type := mkPage { extract_text : outcome (option string) }.

(** An entry of the collection. *)
Record Entry : Type := mkEntry {
  entry_id : string;
  entry_document : string;
  entry_metadata : list (string * string)
}.

(** The dict [collection.query] returns: the keys the program reads. *)
Record QueryResult : Type := mkQueryResult {
  qr_documents : option (list (list string));
  qr_metadatas : option (list (list (list (string * string))))
}.

(** One [requests.post(url, json=..., timeout=...)]. *)
Record Request : Type := mkRequest {
  req_url : string;
  req_json : list (string * json);
  req_timeout : Z
}.

(** A [requests.Response]: the status, the message [raise_for_status] raises
    with on a 4xx/5xx status, and what [response.json()] does. *)
Record Response : Type := mkResponse {
  status_code : Z;
  http_error_msg : string;
  json_body : outcome json
}.

(** Everything outside the program. *)
Record World : Type := mkWorld {
  (** names in [./documents], [None] when the directory does not exist *)
  documents_dir : option (list string);
  (** [pdfplumber.open(path)] and its [pages] *)
  pdfplumber_open : string -> outcome (list Page);
  (** the successive values of [str(uuid.uuid4())] *)
  uuid4_at : nat -> string;
  (** [collection.query(query_texts=[q], n_results=n, include=["metadatas"])]
      on a given content of the collection *)
  collection_query : list Entry -> string -> nat -> outcome QueryResult;
  (** the backend's reaction to a request *)
  requests_post : Request -> outcome Response;
  (** the largest batch the store takes in one [collection.add] *)
  max_batch_size : nat
}.

(** The mutable state of the process. *)
Record Sys : Type := mkSys {
  stdout : list string;          (** lines printed so far *)
  collection : list Entry;       (** the Chroma collection *)
  uuid_count : nat;              (** uuids drawn so far *)
  sent : list Request            (** HTTP requests made so far *)
}.

Definition set_stdout (f : list string -> list string) (s : Sys) : Sys :=
  mkSys (f (stdout s)) (collection s) (uuid_count s) (sent s).
Definition set_collection (f : list Entry -> list Entry) (s : Sys) : Sys :=
  mkSys (stdout s) (f (collection s)) (uuid_count s) (sent s).
Definition set_uuid_count (f : nat -> nat) (s : Sys) : Sys :=
  mkSys (stdout s) (collection s) (f (uuid_count s)) (sent s).
Definition set_sent (f : list Request -> list Request) (s : Sys) : Sys :=
  mkSys (stdout s) (collection s) (uuid_count s) (f (sent s)).

(** Computations: a state is threaded, and an exception keeps the state
    reached when it was raised. *)
Definition M (A : Type) : Type := Sys -> outcome A * Sys.

Definition ret {A} (a : A) : M A := fun s => (Returned a, s).
Definition raise {A} (e : Exn) : M A := fun s => (Raised e, s).
Definition bind {A B} (m : M A) (f : A -> M B) : M B :=
  fun s => match m s with
           | (Returned a, s') => f a s'
           | (Raised e, s') => (Raised e, s')
           end.
Definition lift {A} (o : outcome A) : M A := fun s => (o, s).

(** [try: m  except <class> as e: h e] *)
Definition try_except {A} (m : M A) (catches : Exn -> bool) (h : Exn -> M A)
  : M A :=
  fun s => match m s with
           | (Raised e, s') => if catches e then h e s' else (Raised e, s')
           | r => r
           end.

Declare Scope py_scope.
Delimit Scope py_scope with py.
Notation "x <- m ;; k" := (bind m (fun x => k))
  (at level 61, m at next level, right associativity) : py_scope.
Notation "m ;;; k" := (bind m (fun _ => k))
  (at level 61, right associativity) : py_scope.
Local Open Scope py_scope.

Definition print (line : string) : M unit :=
  fun s => (Returned tt, set_stdout (fun o => o ++ [line]) s).

(* ===================================================================== *)
(** ** TextExtractor and CorpusBuilder *)
(* ===================================================================== *)

Module Pdf.

(** Lines 25-26: the clean-up of a page's text. *)
Definition clean (text : string) : string :=
  let text := Py.replace "  " " " text in
  Py.join Py.nl (map Py.strip (Py.split Py.LF text)).

Definition placeholder (page_num : nat) : string :=
  "[No text found on page " ++ Py.str_of_nat page_num ++ "]".

(** Lines 22-29: the loop over [enumerate(pdf.pages, 1)], appending to
    [text_content]. *)
Fixpoint pages_loop (pages : list Page) (page_num : nat)
    (text_content : list string) : M (list string) :=
  match pages with
  | [] => ret text_content
  | page :: rest =>
      text <- lift (extract_text page) ;;
      match text with
      | Some t =>
          if Py.truthy t
          then pages_loop rest (S page_num) (text_content ++ [clean t])
          else pages_loop rest (S page_num)
                 (text_content ++ [placeholder page_num])
      | None =>
          pages_loop rest (S page_num)
            (text_content ++ [placeholder page_num])
      end
  end.

(** Lines 18-33. *)
Definition extract_text_from_pdf (w : World) (pdf_path : string) : M string :=
  try_except
    (pages <- lift (pdfplumber_open w pdf_path) ;;
     text_content <- pages_loop pages 1 [] ;;
     ret (Py.join " " text_content))
    is_Exception
    (fun e =>
       print ("Error extracting text from " ++ pdf_path ++ ": " ++ exn_msg e) ;;;
       ret "").

Record Document : Type := mkDocument { text : string; source : string }.

Definition general_docs : list Document :=
  [ mkDocument
      "The Apollo 11 mission landed humans on the moon for the first time on July 20, 1969."
      "space_facts";
    mkDocument
      "SpaceX's Falcon 9 is a reusable rocket designed to reduce the cost of space travel."
      "space_facts";
    mkDocument
      "The International Space Station orbits Earth at an altitude of about 400 kilometers."
      "space_facts";
    mkDocument
      "Mars Rover Perseverance searches for signs of ancient life on the Martian surface."
      "space_facts" ].

(** [docs_dir.glob("*.pdf")] on the names of the directory. *)
Definition glob_pdf (names : list string) : list string :=
  filter (fun name => Py.endswith name ".pdf") names.

(** Lines 46-53. *)
Fixpoint files_loop (w : World) (pdf_files : list string)
    (documents : list Document) : M (list Document) :=
  match pdf_files with
  | [] => ret documents
  | name :: rest =>
      print ("Processing: " ++ name) ;;;
      text <- extract_text_from_pdf w ("documents/" ++ name) ;;
      if Py.truthy (Py.strip text)
      then files_loop w rest (documents ++ [mkDocument text name])
      else files_loop w rest documents
  end.

(** Lines 36-75. *)
Definition process_documents (w : World) : M (list Document) :=
  let pdf_files :=
    match documents_dir w with
    | Some names => glob_pdf names
    | None => []
    end in
  documents <- files_loop w pdf_files [] ;;
  ret (documents ++ general_docs).

End Pdf.

(* ===================================================================== *)
(** ** VectorIndex *)
(* ===================================================================== *)

(** The collection is the list of its entries in the order they were
    added; [get] and [delete] work on that list, [add] checks its batch as
    the store does, and the similarity search [query] is the world's. *)
Module Index.
Import Pdf.

(** [enumerate(l)] *)
Definition enumerate {A : Type} (l : list A) : list (nat * A) :=
  combine (seq 0 (length l)) l.

(** [[l[i] for i in indices]] *)
Fixpoint getitems {A : Type} (l : list A) (indices : list nat)
  : outcome (list A) :=
  match indices with
  | [] => Returned []
  | i :: r =>
      match nth_error l i with
      | None => Raised (mkExn IndexError "list index out of range")
      | Some x =>
          match getitems l r with
          | Returned xs => Returned (x :: xs)
          | Raised e => Raised e
          end
      end
  end.

Definition mem (x : string) (l : list string) : bool :=
  existsb (String.eqb x) l.

Fixpoint distinct (l : list string) : bool :=
  match l with
  | [] => true
  | x :: r => negb (mem x r) && distinct r
  end.

Definition nonempty {A : Type} (l : list A) : bool :=
  match l with [] => false | _ => true end.

(** [collection.get()["ids"]] *)
Definition collection_get_ids : M (list string) :=
  fun s => (Returned (map entry_id (collection s)), s).

(** [collection.delete(ids=ids)] *)
Definition collection_delete (ids : list string) : M unit :=
  fun s =>
    (Returned tt,
     set_collection (filter (fun e => negb (mem (entry_id e) ids))) s).

Fixpoint entries (docs ids : list string)
    (metas : list (list (string * string))) : list Entry :=
  match docs, ids, metas with
  | d :: docs', i :: ids', m :: metas' =>
      mkEntry i d m :: entries docs' ids' metas'
  | _, _, _ => []
  end.

(** [collection.add(documents=docs, ids=ids, metadatas=metas)]: the lists
    must have one length, an id may neither repeat in the batch nor be
    stored already, and the batch may not be larger than the store takes;
    the entries are then appended. *)
Definition collection_add (w : World) (docs ids : list string)
    (metas : list (list (string * string))) : M unit :=
  fun s =>
    if negb ((length docs =? length ids) && (length metas =? length ids))
    then (Raised (mkExn ValueError "Unequal lengths for fields"), s)
    else if negb (distinct (ids ++ map entry_id (collection s)))
    then (Raised (mkExn DuplicateIDError "Expected IDs to be unique"), s)
    else if max_batch_size w <? length ids
    then (Raised (mkExn ValueError
                    ("Batch size " ++ Py.str_of_nat (length ids)
                     ++ " exceeds maximum batch size "
                     ++ Py.str_of_nat (max_batch_size w))), s)
    else (Returned tt,
          set_collection (fun c => c ++ entries docs ids metas) s).

(** [str(uuid.uuid4())] *)
Definition uuid4 (w : World) : M string :=
  fun s => (Returned (uuid4_at w (uuid_count s)), set_uuid_count S s).

(** [[str(uuid.uuid4()) for _ in docs]] *)
Fixpoint uuid_for {A : Type} (w : World) (docs : list A) : M (list string) :=
  match docs with
  | [] => ret []
  | _ :: r =>
      u <- uuid4 w ;;
      us <- uuid_for w r ;;
      ret (u :: us)
  end.

(** Lines 78-103. *)
Definition store_documents (w : World) (docs : list Document) : M unit :=
  existing_ids <- collection_get_ids ;;
  (if nonempty existing_ids then collection_delete existing_ids else ret tt) ;;;
  let documents_text := map text docs in
  documents_ids <- uuid_for w docs ;;
  let documents_metadata := map (fun doc => [("source", source doc)]) docs in
  let valid_indices :=
    map fst
      (filter (fun id => Py.truthy (Py.strip (snd id)))
         (enumerate documents_text)) in
  valid_docs <- lift (getitems documents_text valid_indices) ;;
  valid_ids <- lift (getitems documents_ids valid_indices) ;;
  valid_metadata <- lift (getitems documents_metadata valid_indices) ;;
  if nonempty valid_docs
  then
    collection_add w valid_docs valid_ids valid_metadata ;;;
    print ("Successfully stored " ++ Py.str_of_nat (length valid_docs)
           ++ " documents in ChromaDB.")
  else print "No valid documents to store.".

(** [[meta["source"] for meta in metas]] *)
Fixpoint sources_of (metas : list (list (string * string)))
  : outcome (list string) :=
  match metas with
  | [] => Returned []
  | meta :: r =>
      match assoc "source" meta with
      | None => Raised (mkExn KeyError "'source'")
      | Some src =>
          match sources_of r with
          | Returned l => Returned (src :: l)
          | Raised e => Raised e
          end
      end
  end.

(** [x[0]] where [x] is what a key of the query result holds. *)
Definition first_row {A : Type} (x : option (list A)) : outcome A :=
  match x with
  | None => Raised (mkExn TypeError "'NoneType' object is not subscriptable")
  | Some [] => Raised (mkExn IndexError "list index out of range")
  | Some (r :: _) => Returned r
  end.

(** Lines 106-114. *)
Definition retrieve_documents (w : World) (query : string) (n_results : nat)
  : M (list string * list string) :=
  results <- (fun s => (collection_query w (collection s) query n_results, s)) ;;
  documents <- lift (first_row (qr_documents results)) ;;
  metas <- lift (first_row (qr_metadatas results)) ;;
  sources <- lift (sources_of metas) ;;
  ret (documents, sources).

End Index.

(* ===================================================================== *)
(** ** GenerationClient *)
(* ===================================================================== *)

Module Llama.

(** Python's operations on a decoded JSON value. *)

Definition type_name (v : json) : string :=
  match v with
  | JNull => "NoneType" | JBool _ => "bool"
  | JInt _ => "int" | JFloat _ => "float"
  | JStr _ => "str" | JArr _ => "list" | JObj _ => "dict"
  end.

Definition no_attribute (v : json) (attr : string) : Exn :=
  mkExn AttributeError
    ("'" ++ type_name v ++ "' object has no attribute '" ++ attr ++ "'").

(** [v.get(key, default)] *)
Definition py_get (v : json) (key : string) (default : json) : outcome json :=
  match v with
  | JObj kv =>
      Returned (match assoc key kv with Some x => x | None => default end)
  | _ => Raised (no_attribute v "get")
  end.

(** [v.strip()] *)
Definition py_strip (v : json) : outcome string :=
  match v with
  | JStr s => Returned (Py.strip s)
  | _ => Raised (no_attribute v "strip")
  end.

(** [key in v] for a string [key] *)
Definition py_in (key : string) (v : json) : outcome bool :=
  match v with
  | JObj kv =>
      Returned (match assoc key kv with Some _ => true | None => false end)
  | JArr l =>
      Returned (existsb (fun x => match x with
                                  | JStr s => String.eqb s key
                                  | _ => false
                                  end) l)
  | JStr s => Returned (Py.contains key s)
  | _ => Raised (mkExn TypeError
                   ("argument of type '" ++ type_name v ++ "' is not iterable"))
  end.

(** [v[key]] for a string [key] *)
Definition py_getitem (v : json) (key : string) : outcome json :=
  match v with
  | JObj kv =>
      match assoc key kv with
      | Some x => Returned x
      | None => Raised (mkExn KeyError ("'" ++ key ++ "'"))
      end
  | JArr _ | JStr _ =>
      Raised (mkExn TypeError (type_name v ++ " indices must be integers"))
  | _ => Raised (mkExn TypeError
                   ("'" ++ type_name v ++ "' object is not subscriptable"))
  end.

(** [len(v)] *)
Definition py_len (v : json) : outcome nat :=
  match v with
  | JArr l => Returned (length l)
  | JStr s => Returned (String.length s)
  | JObj kv => Returned (length (nodup string_dec (map fst kv)))
  | _ => Raised (mkExn TypeError
                   ("object of type '" ++ type_name v ++ "' has no len()"))
  end.

(** [v[0]] *)
Definition py_getitem0 (v : json) : outcome json :=
  match v with
  | JArr (x :: _) => Returned x
  | JArr [] => Raised (mkExn IndexError "list index out of range")
  | JStr (String c _) => Returned (JStr (String c EmptyString))
  | JStr EmptyString => Raised (mkExn IndexError "string index out of range")
  | JObj _ => Raised (mkExn KeyError "0")
  | _ => Raised (mkExn TypeError
                   ("'" ++ type_name v ++ "' object is not subscriptable"))
  end.

(** [requests.post(url, json=body, timeout=timeout)] *)
Definition post (w : World) (url : string) (body : list (string * json))
    (timeout : Z) : M Response :=
  fun s =>
    let r := mkRequest url body timeout in
    (requests_post w r, set_sent (fun l => l ++ [r]) s).

(** [response.raise_for_status()] *)
Definition raise_for_status (response : Response) : M unit :=
  if ((400 <=? status_code response) && (status_code response <? 600))%Z
  then raise (mkExn HTTPError (http_error_msg response))
  else ret tt.

Definition native_url : string := "http://localhost:8000/completion".
Definition openai_url : string := "http://localhost:8000/v1/completions".

Definition endpoints : list string := [native_url; openai_url].

Definition probe_body : list (string * json) :=
  [("prompt", JStr "test"); ("max_tokens", JInt 1)].

(** Lines 125-134: one turn of the loop; [Some url] is [return url], [None]
    goes on to the next candidate. *)
Definition probe (w : World) (url : string) : M (option string) :=
  try_except
    (response <- post w url probe_body 5 ;;
     if (status_code response =? 200)%Z then ret (Some url) else ret None)
    is_RequestException
    (fun _ => ret None).

Fixpoint probe_loop (w : World) (urls : list string) : M (option string) :=
  match urls with
  | [] => ret None
  | url :: rest =>
      r <- probe w url ;;
      match r with
      | Some u => ret (Some u)
      | None => probe_loop w rest
      end
  end.

(** Lines 116-138. *)
Definition check_llama_server (w : World) : M (option string) :=
  try_except (probe_loop w endpoints) is_Exception (fun _ => ret None).

Definition nl2 : string := Py.nl ++ Py.nl.

(** Line 147. *)
Definition sources_text (sources : list string) : string :=
  Py.nl ++ "Sources: " ++ Py.join ", " sources.

(** Line 148. *)
Definition full_prompt (prompt context : string) (sources : list string)
  : string :=
  "Context: " ++ context ++ nl2 ++ "Question: " ++ prompt ++ nl2
  ++ "Based on the provided context, please answer the question:"
  ++ sources_text sources ++ Py.nl ++ "Answer:".

(** Lines 150-166. *)
Definition payload (endpoint full_prompt : string) : list (string * json) :=
  let payload :=
    [("prompt", JStr full_prompt);
     ("max_tokens", JInt 500);
     ("temperature", JFloat 0.7);
     ("top_p", JFloat 0.95);
     ("stop", JArr [JStr nl2])] in
  if Py.endswith endpoint "/completion"
  then [("prompt", JStr full_prompt);
        ("n_predict", JInt 500);
        ("temperature", JFloat 0.7);
        ("top_p", JFloat 0.95);
        ("stop", JArr [JStr nl2])]
  else payload.

(** Lines 174-180: reading the answer out of the decoded body. *)
Definition read_answer (endpoint : string) (result : json) : outcome string :=
  if Py.endswith endpoint "/completion"
  then
    match py_get result "content" (JStr "") with
    | Returned v => py_strip v
    | Raised e => Raised e
    end
  else
    let test :=
      match py_in "choices" result with
      | Returned true =>
          match py_getitem result "choices" with
          | Returned choices =>
              match py_len choices with
              | Returned n => Returned (0 <? n)
              | Raised e => Raised e
              end
          | Raised e => Raised e
          end
      | Returned false => Returned false
      | Raised e => Raised e
      end in
    match test with
    | Returned true =>
        match py_getitem result "choices" with
        | Returned choices =>
            match py_getitem0 choices with
            | Returned choice =>
                match py_getitem choice "text" with
                | Returned t => py_strip t
                | Raised e => Raised e
                end
            | Raised e => Raised e
            end
        | Raised e => Raised e
        end
    | Returned false =>
        Returned "Error: Unexpected response format from llama.cpp server"
    | Raised e => Raised e
    end.

Definition unreachable_msg : string :=
  "Error: Could not connect to llama.cpp server. Please verify the server is running and the endpoint is correct. Try starting the server with: ./server --port 8000".

(** Lines 141-184. *)
Definition query_llama (w : World) (prompt context : string)
    (sources : list string) : M string :=
  endpoint <- check_llama_server w ;;
  match endpoint with
  | None => ret unreachable_msg
  | Some endpoint =>
      if negb (Py.truthy endpoint) then ret unreachable_msg
      else
        let full_prompt := full_prompt prompt context sources in
        let payload := payload endpoint full_prompt in
        try_except
          (try_except
             (response <- post w endpoint payload 30 ;;
              raise_for_status response ;;;
              result <- lift (json_body response) ;;
              lift (read_answer endpoint result))
             is_RequestException
             (fun e => ret ("Error querying llama.cpp server: " ++ exn_msg e)%string))
          is_ValueError
          (fun e => ret ("Error parsing server response: " ++ exn_msg e)%string)
  end.

End Llama.

(* ===================================================================== *)
(** ** RagPipeline *)
(* ===================================================================== *)

Module Rag.

(** Lines 187-193. *)
Definition rag_pipeline (w : World) (query : string) : M string :=
  rd <- Index.retrieve_documents w query 3 ;;
  let (retrieved_docs, sources) := rd in
  let context := Py.join " " retrieved_docs in
  answer <- Llama.query_llama w query context sources ;;
  ret answer.

End Rag.

(* ===================================================================== *)
(** ** What the specification speaks of *)
(* ===================================================================== *)

Module Spec.
Import Pdf.

(** A line of a page after normalisation: pairs of spaces collapsed, then
    the white space at both ends removed. *)
Definition normalized_line (line : string) : string :=
  Py.strip (Py.replace "  " " " line).

(** The text block of page [n] whose extraction gave [t]: the placeholder
    when there is no text, the normalised lines with their line breaks
    otherwise. *)
Definition page_block (n : nat) (t : option string) : string :=
  match t with
  | Some (String _ _ as t) =>
      Py.join Py.nl (map normalized_line (Py.split Py.LF t))
  | _ => "[No text found on page " ++ Py.str_of_nat n ++ "]"
  end.

Fixpoint page_blocks (n : nat) (texts : list (option string)) : list string :=
  match texts with
  | [] => []
  | t :: r => page_block n t :: page_blocks (S n) r
  end.

(** The first page whose extraction faults, with what was extracted
    before it. *)
Fixpoint extraction (pages : list Page) : outcome (list (option string)) :=
  match pages with
  | [] => Returned []
  | p :: r =>
      match extract_text p with
      | Raised e => Raised e
      | Returned t =>
          match extraction r with
          | Returned ts => Returned (t :: ts)
          | Raised e => Raised e
          end
      end
  end.

(** A file is parseable when it opens and every page is extracted. *)
Definition parsed (w : World) (pdf_path : string)
  : outcome (list (option string)) :=
  match pdfplumber_open w pdf_path with
  | Raised e => Raised e
  | Returned pages => extraction pages
  end.

Definition diagnostic (pdf_path : string) (e : Exn) : string :=
  "Error extracting text from " ++ pdf_path ++ ": " ++ exn_msg e.

(** The text a file contributes. *)
Definition extracted (w : World) (pdf_path : string) : string :=
  match parsed w pdf_path with
  | Returned texts => Py.join " " (page_blocks 1 texts)
  | Raised _ => ""
  end.

Definition blank (s : string) : bool := negb (Py.truthy (Py.strip s)).

(** The documents the files of the directory contribute, in the order of
    the listing. *)
Definition file_documents (w : World) (names : list string) : list Document :=
  flat_map
    (fun name =>
       let t := extracted w ("documents/" ++ name) in
       if blank t then [] else [mkDocument t name])
    names.

Definition pdf_files (w : World) : list string :=
  match documents_dir w with
  | Some names => filter (fun name => Py.endswith name ".pdf") names
  | None => []
  end.

Definition starts_with_space (s : string) : bool :=
  match s with
  | String c _ => Ascii.eqb c " "%char
  | EmptyString => false
  end.

Fixpoint ends_with_space (s : string) : bool :=
  match s with
  | EmptyString => false
  | String c EmptyString => Ascii.eqb c " "%char
  | String _ r => ends_with_space r
  end.

(** The ids a call of [store_documents] draws when it starts in [s]: one
    per document. *)
Definition assigned_ids (w : World) (s : Sys) (docs : list Document)
  : list string :=
  map (uuid4_at w) (seq (uuid_count s) (length docs)).

(** The elements of [l] that stand where a document is not blank. *)
Fixpoint keep_valid {A : Type} (docs : list Document) (l : list A) : list A :=
  match docs, l with
  | d :: docs', x :: l' =>
      if blank (text d) then keep_valid docs' l' else x :: keep_valid docs' l'
  | _, _ => []
  end.

(** The ids of the documents the call stores. *)
Definition stored_ids (w : World) (s : Sys) (docs : list Document)
  : list string :=
  keep_valid docs (assigned_ids w s docs).

Definition valid_documents (docs : list Document) : list Document :=
  filter (fun d => negb (blank (text d))) docs.

(** The (text, source) pairs of the entries of a collection. *)
Definition pairs (c : list Entry) : list (string * option string) :=
  map (fun e => (entry_document e, assoc "source" (entry_metadata e))) c.

Definition pairs_of (docs : list Document) : list (string * option string) :=
  map (fun d => (text d, Some (source d))) (valid_documents docs).

(** The fault of a batch of [n] records that the store does not take. *)
Definition batch_error (w : World) (n : nat) : Exn :=
  mkExn ValueError
    ("Batch size " ++ Py.str_of_nat n ++ " exceeds maximum batch size "
     ++ Py.str_of_nat (max_batch_size w)).

(** The line a successful storage prints. *)
Definition stored_line (n : nat) : string :=
  ("Successfully stored " ++ Py.str_of_nat n ++ " documents in ChromaDB.")%string.

(** The trial request of the discovery. *)
Definition probe_request (url : string) : Request :=
  mkRequest url [("prompt", JStr "test"); ("max_tokens", JInt 1)] 5.

(** A candidate answers when its trial request comes back with status 200. *)
Definition answers (w : World) (url : string) : bool :=
  match requests_post w (probe_request url) with
  | Returned r => (status_code r =? 200)%Z
  | Raised _ => false
  end.

(** A candidate is down when its trial request fails in transport or comes
    back with another status. *)
Definition down (w : World) (url : string) : bool :=
  match requests_post w (probe_request url) with
  | Returned r => negb (status_code r =? 200)%Z
  | Raised e => is_RequestException e
  end.

(** What the two handlers of [query_llama] make of a fault. *)
Definition handled (e : Exn) : outcome string :=
  if is_RequestException e
  then Returned ("Error querying llama.cpp server: " ++ exn_msg e)%string
  else if is_ValueError e
  then Returned ("Error parsing server response: " ++ exn_msg e)%string
  else Raised e.

(** What [query_llama] makes of the backend's reaction to the generation
    request sent to [endpoint]. *)
Definition reply (endpoint : string) (o : outcome Response) : outcome string :=
  match o with
  | Raised e => handled e
  | Returned response =>
      if ((400 <=? status_code response) && (status_code response <? 600))%Z
      then handled (mkExn HTTPError (http_error_msg response))
      else match json_body response with
           | Raised e => handled e
           | Returned result =>
               match Llama.read_answer endpoint result with
               | Returned answer => Returned answer
               | Raised e => handled e
               end
           end
  end.

(** The generation request for a bound endpoint. *)
Definition generation_request (endpoint prompt context : string)
    (sources : list string) : Request :=
  mkRequest endpoint
    (Llama.payload endpoint (Llama.full_prompt prompt context sources)) 30.

Definition add_sent (l : list Request) (s : Sys) : Sys :=
  mkSys (stdout s) (collection s) (uuid_count s) (sent s ++ l).

(** The unhandled faults of a computation. *)
Definition raises {A : Type} (m : M A) (s : Sys) : Prop :=
  exists e s', m s = (Raised e, s').

Definition returns {A : Type} (m : M A) (s : Sys) : Prop :=
  exists a s', m s = (Returned a, s').

(** A collection that answers a query with the fields named by [include]
    and with nothing under the others: asked for the metadatas only, as
    line 111 does, it gives no documents. *)
Definition metadatas_only (w : World) : Prop :=
  forall (stored : list Entry) (query : string) (n : nat) (r : QueryResult),
    collection_query w stored query n = Returned r -> qr_documents r = None.

End Spec.

(* ===================================================================== *)
(** ** Concrete worlds *)
(* ===================================================================== *)

Module Examples.
Import Pdf.

Definition start : Sys := mkSys [] [] 0 [].

Definition uuid_n (n : nat) : string := "uuid-" ++ Py.str_of_nat n.

Definition not_a_pdf : Exn :=
  mkExn OtherException "No /Root object! - Is this really a PDF?".

Definition refused : Exn := mkExn ConnectionError "Connection refused".

Definition no_hits : QueryResult := mkQueryResult (Some [[]]) (Some [[]]).

(** The batch limit of a store whose database takes 32766 variables in a
    statement, six to a record. *)
#[warnings="-abstract-large-number"]
Definition batch_limit : nat := 5461.

Definition never_asked : outcome Response :=
  Raised (mkExn ConnectionError "Connection refused").

(** [documents/] holds a two-page file (one page without text), a file
    that is no PDF, a scan whose only page is white space, and a text file. *)
Definition two_pages : list Page :=
  [ mkPage (Returned (Some " Hello  world 
 second line ")); mkPage (Returned None) ].

Definition w_files : World :=
  mkWorld
    (Some ["cv.pdf"; "broken.pdf"; "scan.pdf"; "notes.txt"])
    (fun path =>
       if String.eqb path "documents/cv.pdf" then Returned two_pages
       else if String.eqb path "documents/scan.pdf"
       then Returned [mkPage (Returned (Some "   "))]
       else Raised not_a_pdf)
    uuid_n
    (fun _ _ _ => Returned no_hits)
    (fun _ => never_asked)
    batch_limit.

(** No [documents/] directory. *)
Definition w_no_dir : World :=
  mkWorld None (fun _ => Raised not_a_pdf) uuid_n
    (fun _ _ _ => Returned no_hits) (fun _ => never_asked) batch_limit.

(** A collection with one stale entry. *)
Definition stale : Sys :=
  mkSys [] [mkEntry "old-id" "old text" [("source", "old.pdf")]] 0 [].

Definition three_docs : list Document :=
  [ mkDocument "alpha" "a.pdf"; mkDocument "   " "b.pdf";
    mkDocument "beta" "space_facts" ].

(** One document more than the store takes in a batch. *)
#[warnings="-abstract-large-number"]
Definition too_many_docs : list Document :=
  repeat (mkDocument "alpha" "a.pdf") 5462.

Definition blank_docs : list Document :=
  [ mkDocument "" "a.pdf"; mkDocument "  " "b.pdf" ].

Definition hit : QueryResult :=
  mkQueryResult (Some [["first"; "second"]])
    (Some [[ [("source", "a.pdf")]; [("source", "space_facts")] ]]).

(** The backend as a function of the request: the native candidate and the
    OpenAI-style candidate react to the trial request and to the generation
    request. *)
Definition backend (native_probe openai_probe generation : outcome Response)
  : Request -> outcome Response :=
  fun r =>
    if (req_timeout r =? 5)%Z
    then if String.eqb (req_url r) Llama.native_url then native_probe
         else openai_probe
    else generation.

Definition ok (body : json) : outcome Response :=
  Returned (mkResponse 200 "" (Returned body)).

Definition w_backend (q : outcome QueryResult)
    (native_probe openai_probe generation : outcome Response) : World :=
  mkWorld None (fun _ => Raised not_a_pdf) uuid_n (fun _ _ _ => q)
    (backend native_probe openai_probe generation) batch_limit.

(** Native candidate down, OpenAI-style candidate up. *)
Definition w_fallback : World :=
  w_backend (Returned hit) (Raised refused) (ok JNull)
    (ok (JObj [("choices", JArr [JObj [("text", JStr " an answer ")]])])).

(** Native candidate up. *)
Definition w_native : World :=
  w_backend (Returned hit) (ok JNull) (Raised refused)
    (ok (JObj [("content", JStr " an answer ")])).

(** Nothing listens. *)
Definition w_offline : World :=
  w_backend (Returned hit) (Raised refused) (Raised refused) (Raised refused).

(** The OpenAI-style backend answers 200 with [{"choices": [{}]}]. *)
Definition w_no_text : World :=
  w_backend (Returned hit) (Raised refused) (ok JNull)
    (ok (JObj [("choices", JArr [JObj []])])).

(** The native backend answers 200 with [{"content": null}]. *)
Definition w_null_content : World :=
  w_backend (Returned hit) (ok JNull) (Raised refused)
    (ok (JObj [("content", JNull)])).

(** The native backend answers 200 with [{}]. *)
Definition w_no_content : World :=
  w_backend (Returned hit) (ok JNull) (Raised refused) (ok (JObj [])).

(** The similarity search of the collection faults. *)
Definition w_index_fault : World :=
  w_backend (Raised (mkExn OtherException "index unavailable"))
    (ok JNull) (Raised refused) (ok (JObj [("content", JStr "an answer")])).

(** The query result carries no documents (they were not among the
    included fields). *)
Definition w_no_documents : World :=
  w_backend
    (Returned (mkQueryResult None (Some [[ [("source", "a.pdf")] ]])))
    (ok JNull) (Raised refused) (ok (JObj [("content", JStr "an answer")])).

End Examples.

(* ===================================================================== *)
(** ** The interactive program *)
(* ===================================================================== *)

(** Lines 195-232, the [__main__] block: start-up, ingestion and the
    question loop.  What happens at each turn of the loop is given from
    outside, one event per turn: what [input] does, and whether a
    [KeyboardInterrupt] arrives while the line is being answered.  An
    interrupt that arrives while a handler itself is printing, or before
    the loop is entered (lines 196-215 are under no handler), is not among
    the events. *)
Module Main.

(** [c.lower()] for one character, for the code points below 256: the
    upper-case letters are A..Z and the accented capitals À..Þ but for
    the multiplication sign. *)
Definition lower_char (c : ascii) : ascii :=
  let n := nat_of_ascii c in
  if ((65 <=? n) && (n <=? 90))
     || ((192 <=? n) && (n <=? 222) && negb (n =? 215))
  then ascii_of_nat (n + 32)
  else c.

(** [s.lower()] *)
Fixpoint lower (s : string) : string :=
  match s with
  | EmptyString => EmptyString
  | String c r => String (lower_char c) (lower r)
  end.

(** One turn of the loop.  [input(prompt)] gives a line, a
    [KeyboardInterrupt], or a fault such as the [EOFError] of a closed
    standard input; or it gives a line and a [KeyboardInterrupt] arrives in
    the rest of the [try] body: before anything is printed ([progress] 0),
    or after "Processing query..." and [k] HTTP requests of the pipeline
    ([progress] [S k]). *)
Inductive Input : Type :=
| Line (query : string)
| Interrupt
| InputFault (e : Exn)
| Interrupted (query : string) (progress : nat).

(** How a run over the given events stands: the loop was left through
    [break], or it is at the prompt again with no event left. *)
Inductive LoopEnd : Type :=
| Left
| AtPrompt.

Definition input_prompt : string :=
  Py.nl ++ "Enter your question (or 'quit' to exit): ".

Definition quit_words : list string := ["quit"; "exit"; "q"].

(** Lines 230-232. *)
Definition report (e : Exn) : M unit :=
  print (Py.nl ++ "Error: " ++ exn_msg e) ;;;
  print "Please make sure the llama.cpp server is running and try again.".

(** Where a computation stands when an interrupt stops it after [k] of
    the HTTP requests it makes; the requests are the only effects of the
    pipeline. *)
Definition cut_short {A : Type} (m : M A) (k : nat) : M unit :=
  fun s =>
    (Returned tt,
     mkSys (stdout s) (collection s) (uuid_count s)
       (firstn (length (sent s) + k) (sent (snd (m s))))).

(** Lines 227-229. *)
Definition leave : M LoopEnd :=
  print (Py.nl ++ "Exiting...") ;;; ret Left.

(** Lines 217-232.  [input] writes its prompt to the standard output; the
    handler of [KeyboardInterrupt] and the handler of [Exception] cover
    [input] and every statement after it. *)
Fixpoint question_loop (w : World) (inputs : list Input) : M LoopEnd :=
  match inputs with
  | [] => ret AtPrompt
  | event :: rest =>
      print input_prompt ;;;
      match event with
      | Interrupt => leave
      | Interrupted query O => leave
      | Interrupted query (S k) =>
          if Index.mem (lower query) quit_words then ret Left
          else
            print (Py.nl ++ "Processing query...") ;;;
            cut_short (Rag.rag_pipeline w query) k ;;;
            leave
      | InputFault e => report e ;;; question_loop w rest
      | Line query =>
          if Index.mem (lower query) quit_words then ret Left
          else
            try_except
              (print (Py.nl ++ "Processing query...") ;;;
               response <- Rag.rag_pipeline w query ;;
               print (Py.nl ++ "Response: " ++ response))
              is_Exception
              report ;;;
            question_loop w rest
      end
  end.

(** The truth value of what [check_llama_server] returns. *)
Definition found (endpoint : option string) : bool :=
  match endpoint with
  | Some url => Py.truthy url
  | None => false
  end.

(** Lines 199-203. *)
Definition warn : M unit :=
  print (Py.nl ++ "Warning: llama.cpp server is not running!") ;;;
  print "Please start the server using llama.cpp with the following command:" ;;;
  print "./server -m <path-to-your-model> -c 2048" ;;;
  print (Py.nl ++ "Continuing with document processing..." ++ Py.nl).

(** Lines 211-215. *)
Definition ready : M unit :=
  print (Py.nl ++ "System is ready for queries!") ;;;
  print "Example queries you can try:" ;;;
  print "1. What are the professional skills mentioned in the CVs?" ;;;
  print "2. List the educational qualifications found in the documents." ;;;
  print "3. What are the most common technical skills across all resumes?".

(** Lines 196-215. *)
Definition startup (w : World) : M unit :=
  print "Starting RAG application..." ;;;
  endpoint <- Llama.check_llama_server w ;;
  (if found endpoint then ret tt else warn) ;;;
  print "Processing documents..." ;;;
  documents <- Pdf.process_documents w ;;
  Index.store_documents w documents ;;;
  ready.

(** Lines 195-232. *)
Definition main (w : World) (inputs : list Input) : M LoopEnd :=
  startup w ;;; question_loop w inputs.

End Main.

(* ===================================================================== *)
(** ** More of what the code shows *)
(* ===================================================================== *)

Module More.
Import Pdf Spec.

(** A string has ink when one of its characters is no white space. *)
Fixpoint has_ink (s : string) : bool :=
  match s with
  | EmptyString => false
  | String c r => negb (Py.isspace c) || has_ink r
  end.

(** A page the extraction gives nothing visible for: some text, all of it
    white space. *)
Definition white_page (t : option string) : bool :=
  match t with
  | Some (String _ _ as t) => negb (has_ink t)
  | _ => false
  end.

(** What [process_documents] prints for one file. *)
Definition file_lines (w : World) (name : string) : list string :=
  ("Processing: " ++ name)%string
  :: match parsed w ("documents/" ++ name) with
     | Returned _ => []
     | Raised e => [diagnostic ("documents/" ++ name) e]
     end.

(** The corpus [process_documents] builds. *)
Definition corpus (w : World) : list Document :=
  file_documents w (pdf_files w) ++ general_docs.

(** The entry stored for a document under an id. *)
Definition entry_of (p : string * Document) : Entry :=
  mkEntry (fst p) (text (snd p)) [("source", source (snd p))].

(** What the error handler of the question loop prints. *)
Definition report_lines (e : Exn) : list string :=
  [ (Py.nl ++ "Error: " ++ exn_msg e)%string;
    "Please make sure the llama.cpp server is running and try again." ].

Definition add_stdout (l : list string) (s : Sys) : Sys :=
  mkSys (stdout s ++ l) (collection s) (uuid_count s) (sent s).

Definition is_quit (query : string) : bool :=
  Index.mem (Main.lower query) Main.quit_words.

(** An event that leaves the loop: an interrupt, at the prompt or while
    the line is answered, or one of the quit words in any letter case. *)
Definition leaves (event : Main.Input) : bool :=
  match event with
  | Main.Interrupt => true
  | Main.Interrupted _ _ => true
  | Main.Line query => is_quit query
  | Main.InputFault _ => false
  end.

Definition warning_lines : list string :=
  [ (Py.nl ++ "Warning: llama.cpp server is not running!")%string;
    "Please start the server using llama.cpp with the following command:";
    "./server -m <path-to-your-model> -c 2048";
    (Py.nl ++ "Continuing with document processing..." ++ Py.nl)%string ].

Definition ready_lines : list string :=
  [ (Py.nl ++ "System is ready for queries!")%string;
    "Example queries you can try:";
    "1. What are the professional skills mentioned in the CVs?";
    "2. List the educational qualifications found in the documents.";
    "3. What are the most common technical skills across all resumes?" ].

(** The trial requests a discovery makes. *)
Definition probes (w : World) : list Request :=
  if answers w Llama.native_url then [probe_request Llama.native_url]
  else if down w Llama.native_url
  then [probe_request Llama.native_url; probe_request Llama.openai_url]
  else [probe_request Llama.native_url].

(** The endpoint a discovery binds. *)
Definition bound (w : World) : option string :=
  if answers w Llama.native_url then Some Llama.native_url
  else if down w Llama.native_url && answers w Llama.openai_url
  then Some Llama.openai_url
  else None.

(** The generation request of a call, when an endpoint is bound. *)
Definition generation (w : World) (prompt context : string)
    (sources : list string) : list Request :=
  match bound w with
  | Some u => [generation_request u prompt context sources]
  | None => []
  end.

(** The native backend is up, and the generation request times out. *)
Definition w_timeout : World :=
  Examples.w_backend (Returned Examples.hit) (Examples.ok JNull)
    (Raised Examples.refused)
    (Raised (mkExn Timeout "Read timed out. (read timeout=30)")).

(** The native backend answers the generation request with a body that
    is no JSON, which [response.json()] reports with the fault of
    [requests] (a [RequestException] and a [ValueError] at once). *)
Definition w_not_json : World :=
  Examples.w_backend (Returned Examples.hit) (Examples.ok JNull)
    (Raised Examples.refused)
    (Returned (mkResponse 200 ""
       (Raised (mkExn RequestsJSONDecodeError
                  "Expecting value: line 1 column 1 (char 0)")))).

(** The OpenAI-style backend answers with an empty list of choices. *)
Definition w_no_choice : World :=
  Examples.w_backend (Returned Examples.hit) (Raised Examples.refused)
    (Examples.ok JNull) (Examples.ok (JObj [("choices", JArr [])])).

End More.

(* ===================================================================== *)
(** ** Facts about the monad *)
(* ===================================================================== *)

Lemma bind_returned {A B} (m : M A) (f : A -> M B) s a s' :
  m s = (Returned a, s') -> bind m f s = f a s'.
Proof. intros H. unfold bind. now rewrite H. Qed.

Lemma bind_raised {A B} (m : M A) (f : A -> M B) s e s' :
  m s = (Raised e, s') -> bind m f s = (Raised e, s').
Proof. intros H. unfold bind. now rewrite H. Qed.

Lemma try_except_returned {A} (m : M A) c h s a s' :
  m s = (Returned a, s') -> try_except m c h s = (Returned a, s').
Proof. intros H. unfold try_except. now rewrite H. Qed.

Lemma try_except_caught {A} (m : M A) c h s e s' :
  m s = (Raised e, s') -> c e = true -> try_except m c h s = h e s'.
Proof. intros H Hc. unfold try_except. now rewrite H, Hc. Qed.

Lemma try_except_escapes {A} (m : M A) c h s e s' :
  m s = (Raised e, s') -> c e = false ->
  try_except m c h s = (Raised e, s').
Proof. intros H Hc. unfold try_except. now rewrite H, Hc. Qed.

(* ===================================================================== *)
(** ** Facts about Python strings *)
(* ===================================================================== *)

Module PyFacts.
Import Spec.
Local Open Scope string_scope.

Lemma string_pair_ind (P : string -> Prop) :
  P EmptyString ->
  (forall c, P (String c EmptyString)) ->
  (forall c d r, P r -> P (String d r) -> P (String c (String d r))) ->
  forall s, P s.
Proof.
  intros H0 H1 H2 s.
  assert (H : P s /\ forall c, P (String c s)).
  { induction s as [|d r [IHr IHc]]; split; auto. }
  apply H.
Qed.

Lemma prefix_two_spaces c r :
  prefix "  " (String c r) = Ascii.eqb c " "%char && starts_with_space r.
Proof.
  cbn [prefix]. destruct (ascii_dec " " c) as [<-|Hc].
  - destruct r as [|d r]; [reflexivity|].
    cbn [prefix starts_with_space].
    destruct (ascii_dec " " d) as [<-|Hd].
    + destruct r; reflexivity.
    + apply not_eq_sym, Ascii.eqb_neq in Hd.
      rewrite Hd. reflexivity.
  - apply not_eq_sym, Ascii.eqb_neq in Hc. now rewrite Hc.
Qed.

(** The three equations of [replace "  " " "]. *)
Lemma replace_empty : Py.replace "  " " " "" = "".
Proof. reflexivity. Qed.

Lemma replace_pair r :
  Py.replace "  " " " (String " "%char (String " "%char r))
  = String " "%char (Py.replace "  " " " r).
Proof.
  unfold Py.replace. cbn [Py.replace_from].
  rewrite prefix_two_spaces. reflexivity.
Qed.

Lemma replace_single c r :
  Ascii.eqb c " "%char && starts_with_space r = false ->
  Py.replace "  " " " (String c r) = String c (Py.replace "  " " " r).
Proof.
  intros H. unfold Py.replace. cbn [Py.replace_from].
  now rewrite prefix_two_spaces, H.
Qed.

Lemma split_nonempty sep s : Py.split sep s <> [].
Proof.
  destruct s as [|c r]; cbn; [discriminate|].
  destruct (Ascii.eqb c sep); [discriminate|].
  destruct (Py.split sep r); discriminate.
Qed.

Lemma split_cons sep c r :
  Ascii.eqb c sep = false ->
  exists h t, Py.split sep r = h :: t
              /\ Py.split sep (String c r) = String c h :: t.
Proof.
  intros H. cbn [Py.split]. rewrite H.
  destruct (Py.split sep r) as [|h t] eqn:E.
  - now apply split_nonempty in E.
  - now exists h, t.
Qed.

Lemma split_sep sep r :
  Py.split sep (String sep r) = "" :: Py.split sep r.
Proof. cbn [Py.split]. now rewrite Ascii.eqb_refl. Qed.

(** The first piece of a split begins as the string does, unless the
    string begins with the separator. *)
Lemma split_head_space r h t :
  Py.split Py.LF r = h :: t -> starts_with_space h = starts_with_space r.
Proof.
  destruct r as [|c r]; cbn [Py.split].
  - intros [= <- <-]. reflexivity.
  - destruct (Ascii.eqb c Py.LF) eqn:E.
    + intros [= <- <-]. apply Ascii.eqb_eq in E. subst c. reflexivity.
    + destruct (Py.split Py.LF r); intros [= <- <-]; reflexivity.
Qed.

(** Collapsing pairs of spaces never touches a line break: it works line
    by line. *)
Lemma split_replace s :
  Py.split Py.LF (Py.replace "  " " " s)
  = map (Py.replace "  " " ") (Py.split Py.LF s).
Proof.
  induction s as [|c|c d r IHr IHd] using string_pair_ind.
  - reflexivity.
  - destruct (Ascii.eqb c Py.LF) eqn:E.
    + apply Ascii.eqb_eq in E. subst c. reflexivity.
    + assert (Hs : Py.replace "  " " " (String c "") = String c "").
      { rewrite replace_single; [reflexivity|].
        cbn [starts_with_space]. apply andb_false_r. }
      rewrite Hs. cbn [Py.split]. rewrite E. cbn [map].
      rewrite Hs. reflexivity.
  - destruct (Ascii.eqb c " "%char && starts_with_space (String d r)) eqn:E.
    + apply andb_true_iff in E as [Ec Ed]. cbn in Ed.
      apply Ascii.eqb_eq in Ec, Ed. subst c d.
      rewrite replace_pair.
      destruct (split_cons Py.LF " "%char r eq_refl) as (h & t & Hr & Hr1).
      destruct (split_cons Py.LF " "%char (String " "%char r) eq_refl)
        as (h' & t' & Hr' & Hr2).
      rewrite Hr1 in Hr'. injection Hr' as <- <-.
      rewrite Hr2. cbn [map]. rewrite replace_pair.
      destruct (split_cons Py.LF " "%char (Py.replace "  " " " r) eq_refl)
        as (k & u & Hk & Hk1).
      rewrite Hk1. rewrite IHr, Hr in Hk. cbn [map] in Hk.
      now injection Hk as <- <-.
    + rewrite (replace_single c) by exact E.
      destruct (Ascii.eqb c Py.LF) eqn:Ec.
      * apply Ascii.eqb_eq in Ec. subst c.
        rewrite !split_sep. cbn [map]. now rewrite IHd.
      * destruct (split_cons Py.LF c (String d r) Ec) as (h & t & Hr & Hr1).
        destruct (split_cons Py.LF c (Py.replace "  " " " (String d r)) Ec)
          as (k & u & Hk & Hk1).
        rewrite Hr1, Hk1. cbn [map].
        rewrite IHd, Hr in Hk. cbn [map] in Hk. injection Hk as <- <-.
        rewrite (replace_single c h); [reflexivity|].
        rewrite (split_head_space _ _ _ Hr). exact E.
Qed.

(** A run of exactly two spaces becomes one space: what stands before it
    does not end with a space (and then what follows decides alone how it
    begins). *)
Lemma replace_run_of_two a b :
  ends_with_space a = false ->
  Py.replace "  " " " (a ++ "  " ++ b)
  = Py.replace "  " " " a ++ " " ++ Py.replace "  " " " b.
Proof.
  induction a as [|c|c d r IHr IHd] using string_pair_ind; intros H.
  - cbn [append]. apply (replace_pair b).
  - cbn [ends_with_space] in H. cbn [append].
    rewrite (replace_single c) by (now rewrite H).
    rewrite (replace_single c "")
      by (cbn [starts_with_space]; apply andb_false_r).
    rewrite (replace_pair b). reflexivity.
  - destruct (Ascii.eqb c " "%char && Ascii.eqb d " "%char) eqn:E.
    + apply andb_true_iff in E as [Ec Ed].
      apply Ascii.eqb_eq in Ec, Ed. subst c d.
      cbn [append]. rewrite !replace_pair. cbn [append].
      f_equal. apply IHr.
      destruct r; [reflexivity|exact H].
    + cbn [append].
      rewrite !(replace_single c) by exact E.
      cbn [append]. f_equal. apply IHd. exact H.
Qed.

(** Longer runs are taken pair by pair from the left: three spaces become
    two, four become two. *)
Example replace_longer_runs :
  Py.replace "  " " " "a   b" = "a  b"
  /\ Py.replace "  " " " "a    b" = "a  b".
Proof. split; reflexivity. Qed.

Lemma replace_starts_with_space b :
  starts_with_space b = false ->
  starts_with_space (Py.replace "  " " " b) = false.
Proof.
  destruct b as [|c r]; [reflexivity|]. intros H. cbn in H.
  rewrite replace_single by (now rewrite H). exact H.
Qed.

End PyFacts.

(** Counting line breaks. *)
Module LineBreaks.
Import Spec.
Local Open Scope string_scope.

Lemma count_app c a b : Py.count c (a ++ b) = Py.count c a + Py.count c b.
Proof. induction a as [|d a IH]; cbn; [reflexivity|]. rewrite IH. lia. Qed.

Lemma split_length s : length (Py.split Py.LF s) = S (Py.count Py.LF s).
Proof.
  induction s as [|c r IH]; [reflexivity|].
  cbn [Py.split Py.count]. destruct (Ascii.eqb c Py.LF) eqn:E.
  - cbn [length]. now rewrite IH.
  - destruct (Py.split Py.LF r); cbn [length] in *; [discriminate|exact IH].
Qed.

Lemma split_pieces s : Forall (fun p => Py.count Py.LF p = 0) (Py.split Py.LF s).
Proof.
  induction s as [|c r IH]; [repeat constructor|].
  cbn [Py.split]. destruct (Ascii.eqb c Py.LF) eqn:E.
  - constructor; [reflexivity|exact IH].
  - destruct (Py.split Py.LF r) as [|h t].
    + constructor; [|constructor]. cbn [Py.count]. now rewrite E.
    + inversion IH as [|? ? Hh Ht]; subst.
      constructor; [|exact Ht]. cbn [Py.count]. now rewrite E, Hh.
Qed.

Lemma replace_count s :
  Py.count Py.LF (Py.replace "  " " " s) = Py.count Py.LF s.
Proof.
  induction s as [|c|c d r IHr IHd] using PyFacts.string_pair_ind.
  - reflexivity.
  - destruct (Ascii.eqb c " "%char) eqn:E.
    + apply Ascii.eqb_eq in E. now subst c.
    + rewrite PyFacts.replace_single by (now rewrite E). reflexivity.
  - destruct (Ascii.eqb c " "%char && starts_with_space (String d r)) eqn:E.
    + apply andb_true_iff in E as [Ec Ed]. cbn in Ed.
      apply Ascii.eqb_eq in Ec, Ed. subst c d.
      rewrite PyFacts.replace_pair. cbn [Py.count]. rewrite IHr. reflexivity.
    + rewrite PyFacts.replace_single by exact E.
      cbn [Py.count]. now rewrite IHd.
Qed.

Lemma lstrip_count s : Py.count Py.LF (Py.lstrip s) <= Py.count Py.LF s.
Proof.
  induction s as [|c r IH]; [reflexivity|].
  cbn [Py.lstrip]. destruct (Py.isspace c); [|reflexivity].
  cbn [Py.count]. lia.
Qed.

Lemma rstrip_count s : Py.count Py.LF (Py.rstrip s) <= Py.count Py.LF s.
Proof.
  induction s as [|c r IH]; [reflexivity|].
  cbn [Py.rstrip]. destruct (Py.rstrip r) as [|d r'] eqn:E.
  - destruct (Py.isspace c); cbn [Py.count] in *; lia.
  - cbn [Py.count] in *. lia.
Qed.

Lemma normalized_line_count p :
  Py.count Py.LF p = 0 -> Py.count Py.LF (normalized_line p) = 0.
Proof.
  intros H. unfold normalized_line, Py.strip.
  pose proof (rstrip_count (Py.lstrip (Py.replace "  " " " p))) as H1.
  pose proof (lstrip_count (Py.replace "  " " " p)) as H2.
  rewrite replace_count in H2. lia.
Qed.

Lemma join_count l :
  Forall (fun p => Py.count Py.LF p = 0) l ->
  Py.count Py.LF (Py.join Py.nl l) = pred (length l).
Proof.
  unfold Py.join. induction l as [|x l IH]; intros H; [reflexivity|].
  inversion H as [|? ? Hx Hl]; subst.
  destruct l as [|y l]; [exact Hx|].
  change (String.concat Py.nl (x :: y :: l))
    with (x ++ Py.nl ++ String.concat Py.nl (y :: l)).
  rewrite !count_app, Hx, (IH Hl). reflexivity.
Qed.

End LineBreaks.

(* ===================================================================== *)
(** ** TextExtractor and CorpusBuilder: the properties *)
(* ===================================================================== *)

Module PdfFacts.
Import Pdf Spec.
Local Open Scope string_scope.

Lemma clean_lines t :
  clean t = Py.join Py.nl (map normalized_line (Py.split Py.LF t)).
Proof.
  unfold clean. rewrite PyFacts.split_replace, map_map. reflexivity.
Qed.

(** The block the loop appends for one page is the specification's. *)
Lemma loop_block n t :
  match t with
  | Some t' => if Py.truthy t' then clean t' else placeholder n
  | None => placeholder n
  end = page_block n t.
Proof.
  destruct t as [[|c t]|]; try reflexivity.
  cbn [Py.truthy page_block]. apply clean_lines.
Qed.

Lemma pages_loop_extraction pages : forall n acc s,
  pages_loop pages n acc s =
  match extraction pages with
  | Returned ts => (Returned (acc ++ page_blocks n ts)%list, s)
  | Raised e => (Raised e, s)
  end.
Proof.
  induction pages as [|p pages IH]; intros n acc s.
  - cbn. now rewrite app_nil_r.
  - cbn [pages_loop extraction]. unfold bind, lift.
    destruct (extract_text p) as [t|e]; [|reflexivity].
    assert (H : forall blk,
      pages_loop pages (S n) (acc ++ [blk])%list s =
      match extraction pages with
      | Returned ts => (Returned (acc ++ blk :: page_blocks (S n) ts)%list, s)
      | Raised e => (Raised e, s)
      end).
    { intros blk. rewrite IH. destruct (extraction pages); [|reflexivity].
      now rewrite <- app_assoc. }
    pose proof (loop_block n t) as Hb.
    destruct t as [t|]; [destruct (Py.truthy t)|]; rewrite H;
      (destruct (extraction pages) as [ts|e];
       [cbn [page_blocks]; rewrite <- Hb; reflexivity|reflexivity]).
Qed.

(** [extract_text_from_pdf] in one equation: the blocks of a parseable
    file, and the empty string with one diagnostic line otherwise. *)
Lemma extract_text_from_pdf_eq w path s :
  extract_text_from_pdf w path s =
  match parsed w path with
  | Returned texts => (Returned (Py.join " " (page_blocks 1 texts)), s)
  | Raised e =>
      (Returned "", set_stdout (fun o => (o ++ [diagnostic path e])%list) s)
  end.
Proof.
  unfold extract_text_from_pdf, parsed, try_except, bind, lift.
  destruct (pdfplumber_open w path) as [pages|e]; [|reflexivity].
  rewrite pages_loop_extraction.
  destruct (extraction pages); reflexivity.
Qed.

Lemma extract_text_from_pdf_value w path s :
  exists s', extract_text_from_pdf w path s = (Returned (extracted w path), s').
Proof.
  rewrite extract_text_from_pdf_eq. unfold extracted.
  destruct (parsed w path); eauto.
Qed.

Lemma files_loop_documents w names : forall acc s,
  exists s',
    files_loop w names acc s
    = (Returned (acc ++ file_documents w names)%list, s').
Proof.
  induction names as [|name names IH]; intros acc s.
  - exists s. cbn. now rewrite app_nil_r.
  - cbn [files_loop file_documents flat_map]. unfold bind at 1. cbn [print].
    match goal with
    | |- context [bind (extract_text_from_pdf w ?p) _ ?st] =>
        destruct (extract_text_from_pdf_value w p st) as [s1 H1]
    end.
    rewrite (bind_returned _ _ _ _ _ H1).
    unfold blank. destruct (Py.truthy (Py.strip (extracted w _))); cbn [negb].
    + destruct (IH (acc ++ [mkDocument (extracted w ("documents/" ++ name)) name])%list s1)
        as [s2 H2].
      exists s2. rewrite H2. now rewrite <- app_assoc.
    + destruct (IH acc s1) as [s2 H2]. exists s2. exact H2.
Qed.

Lemma file_documents_not_blank w names :
  Forall (fun d => blank (text d) = false) (file_documents w names).
Proof.
  induction names as [|name names IH]; [constructor|].
  cbn [file_documents flat_map].
  destruct (blank (extracted w ("documents/" ++ name))) eqn:E; [exact IH|].
  constructor; [exact E|exact IH].
Qed.

End PdfFacts.

Module PdfClaims.
Import Pdf Spec.
Local Open Scope string_scope.

(** C5.  For a parseable PDF (the file opens and every page is extracted),
    [extract_text_from_pdf] returns the text blocks of the pages joined by
    single spaces and prints nothing.  The block of a page with text is
    made of its lines, each with its pairs of spaces collapsed and its
    white space at both ends stripped, joined by the line breaks again; the
    block of a page without text is "[No text found on page n]", pages
    counted from 1.  A page block has as many line breaks as the page's
    text, and a run of exactly two spaces becomes a single space. *)
Theorem extract_text_from_pdf_parseable :
  forall (w : World) (pdf_path : string) (texts : list (option string))
         (s : Sys),
    parsed w pdf_path = Returned texts ->
    extract_text_from_pdf w pdf_path s
    = (Returned (Py.join " " (page_blocks 1 texts)), s)
    /\ (forall n c t,
          Py.count Py.LF (page_block n (Some (String c t)))
          = Py.count Py.LF (String c t))
    /\ (forall n, page_block n None
                  = "[No text found on page " ++ Py.str_of_nat n ++ "]"
                  /\ page_block n (Some "") = page_block n None)
    /\ (forall a b,
          ends_with_space a = false -> starts_with_space b = false ->
          Py.replace "  " " " (a ++ "  " ++ b)
          = Py.replace "  " " " a ++ " " ++ Py.replace "  " " " b
          /\ starts_with_space (Py.replace "  " " " b) = false).
Proof.
  intros w pdf_path texts s H. repeat split.
  - rewrite PdfFacts.extract_text_from_pdf_eq, H. reflexivity.
  - intros n c t. cbn [page_block].
    rewrite LineBreaks.join_count.
    + rewrite length_map, LineBreaks.split_length. reflexivity.
    + apply Forall_map.
      eapply Forall_impl; [|apply LineBreaks.split_pieces].
      intros p. apply LineBreaks.normalized_line_count.
  - now apply PyFacts.replace_run_of_two.
  - now apply PyFacts.replace_starts_with_space.
Qed.

Lemma extract_text_from_pdf_parseable_witness :
  extract_text_from_pdf Examples.w_files "documents/cv.pdf" Examples.start
  = (Returned "Hello world
second line [No text found on page 2]", Examples.start).
Proof.
  apply (extract_text_from_pdf_parseable Examples.w_files "documents/cv.pdf"
           [Some " Hello  world 
 second line "; None] Examples.start).
  reflexivity.
Defined.

(** C9.  [extract_text_from_pdf] never raises: it always returns a string.
    When the file cannot be opened as a PDF, or when the extraction of one
    of its pages faults, the result is the empty string and exactly one
    diagnostic line, naming the path and the cause, has been printed. *)
Theorem extract_text_from_pdf_never_raises :
  forall (w : World) (pdf_path : string) (s : Sys),
    returns (extract_text_from_pdf w pdf_path) s
    /\ (forall e,
          pdfplumber_open w pdf_path = Raised e ->
          extract_text_from_pdf w pdf_path s
          = (Returned "",
             set_stdout (fun o => (o ++ [diagnostic pdf_path e])%list) s))
    /\ (forall pages e,
          pdfplumber_open w pdf_path = Returned pages ->
          extraction pages = Raised e ->
          extract_text_from_pdf w pdf_path s
          = (Returned "",
             set_stdout (fun o => (o ++ [diagnostic pdf_path e])%list) s)).
Proof.
  intros w pdf_path s. repeat split.
  - destruct (PdfFacts.extract_text_from_pdf_value w pdf_path s) as [s' H].
    now exists (extracted w pdf_path), s'.
  - intros e H. rewrite PdfFacts.extract_text_from_pdf_eq.
    unfold parsed. now rewrite H.
  - intros pages e H He. rewrite PdfFacts.extract_text_from_pdf_eq.
    unfold parsed. now rewrite H, He.
Qed.

Lemma extract_text_from_pdf_never_raises_witness :
  extract_text_from_pdf Examples.w_files "documents/broken.pdf" Examples.start
  = (Returned "",
     mkSys ["Error extracting text from documents/broken.pdf: No /Root object! - Is this really a PDF?"]
       [] 0 []).
Proof.
  apply (proj1 (proj2 (extract_text_from_pdf_never_raises Examples.w_files
                         "documents/broken.pdf" Examples.start))
           Examples.not_a_pdf).
  reflexivity.
Defined.

(** C4.  Whatever the state of the documents directory, [process_documents]
    returns the documents of the PDF files followed by the 4 built-in
    documents, all of source "space_facts".  A missing directory gives no
    file at all; a file whose extracted text is empty or white space gives no
    document; the corpus has at least 4 documents. *)
Theorem process_documents_ends_with_general_docs :
  forall (w : World) (s : Sys),
    (exists s',
        process_documents w s
        = (Returned (file_documents w (pdf_files w) ++ general_docs)%list, s'))
    /\ (documents_dir w = None -> pdf_files w = [])
    /\ (forall names,
          documents_dir w = Some names ->
          pdf_files w = filter (fun name => Py.endswith name ".pdf") names)
    /\ (forall name names,
          blank (extracted w ("documents/" ++ name)) = true ->
          file_documents w (name :: names) = file_documents w names)
    /\ Forall (fun d => blank (text d) = false)
         (file_documents w (pdf_files w))
    /\ length general_docs = 4
    /\ Forall (fun d => source d = "space_facts") general_docs
    /\ 4 <= length (file_documents w (pdf_files w) ++ general_docs)%list.
Proof.
  intros w s. repeat split.
  - unfold process_documents.
    destruct (PdfFacts.files_loop_documents w (pdf_files w) [] s) as [s' H].
    exists s'. unfold pdf_files, glob_pdf in *.
    rewrite (bind_returned _ _ _ _ _ H). reflexivity.
  - intros H. unfold pdf_files. now rewrite H.
  - intros names H. unfold pdf_files. now rewrite H.
  - intros name names H. cbn [file_documents flat_map]. now rewrite H.
  - apply PdfFacts.file_documents_not_blank.
  - repeat constructor.
  - rewrite length_app. cbn. lia.
Qed.

Lemma process_documents_ends_with_general_docs_witness :
  pdf_files Examples.w_no_dir = []
  /\ file_documents Examples.w_files (pdf_files Examples.w_files)
     = [mkDocument "Hello world
second line [No text found on page 2]" "cv.pdf"].
Proof.
  split.
  - apply (proj1 (proj2 (process_documents_ends_with_general_docs
                           Examples.w_no_dir Examples.start))).
    reflexivity.
  - reflexivity.
Defined.

End PdfClaims.

(* ===================================================================== *)
(** ** VectorIndex: the properties *)
(* ===================================================================== *)

Module IndexFacts.
Import Pdf Index Spec.

Lemma mem_In x l : mem x l = true <-> In x l.
Proof.
  unfold mem. rewrite existsb_exists. split.
  - intros (y & Hy & E). apply String.eqb_eq in E. now subst.
  - intros H. exists x. split; [exact H|apply String.eqb_refl].
Qed.

(** Deleting the ids of all the entries empties the collection. *)
Lemma delete_all (c : list Entry) (ids : list string) :
  incl (map entry_id c) ids ->
  filter (fun e => negb (mem (entry_id e) ids)) c = [].
Proof.
  induction c as [|e c IH]; intros H; [reflexivity|].
  cbn [filter].
  assert (He : mem (entry_id e) ids = true).
  { apply mem_In, H. now left. }
  rewrite He. cbn [negb]. apply IH.
  intros x Hx. apply H. now right.
Qed.

(** Lines 80-82 leave an empty collection and touch nothing else. *)
Lemma clear_collection {A} (k : M A) (s : Sys) :
  bind collection_get_ids
    (fun existing_ids =>
       bind (if nonempty existing_ids
             then collection_delete existing_ids else ret tt)
         (fun _ => k)) s
  = k (mkSys (stdout s) [] (uuid_count s) (sent s)).
Proof.
  destruct s as [o c u r]. unfold bind, collection_get_ids. cbn [collection].
  destruct c as [|e c]; [reflexivity|].
  cbn [map nonempty]. unfold collection_delete, set_collection.
  cbn [stdout collection uuid_count sent].
  change (entry_id e :: map entry_id c) with (map entry_id (e :: c)).
  rewrite delete_all by apply incl_refl. reflexivity.
Qed.

Lemma uuid_for_eq {A} (w : World) (docs : list A) : forall s,
  uuid_for w docs s
  = (Returned (map (uuid4_at w) (seq (uuid_count s) (length docs))),
     set_uuid_count (fun n => n + length docs) s).
Proof.
  induction docs as [|d docs IH]; intros [o c u r].
  - cbn. unfold ret, set_uuid_count. cbn. now rewrite Nat.add_0_r.
  - cbn [uuid_for length seq map]. unfold bind at 1. unfold uuid4 at 1.
    unfold bind at 1. rewrite IH. unfold ret, set_uuid_count.
    cbn [stdout collection uuid_count sent].
    now rewrite Nat.add_succ_r.
Qed.

(** Picking the elements at the valid indices keeps the elements that
    stand where a document is not blank. *)
Lemma getitems_keep_valid {A} (docs : list Document) :
  forall (pre l : list A),
    length l = length docs ->
    getitems (pre ++ l)
      (map fst
         (filter (fun id => Py.truthy (Py.strip (snd id)))
            (combine (seq (length pre) (length (map text docs)))
               (map text docs))))
    = Returned (keep_valid docs l).
Proof.
  induction docs as [|d docs IH]; intros pre l Hl.
  - now destruct l.
  - destruct l as [|x l]; [discriminate|]. injection Hl as Hl.
    cbn [map length seq combine filter snd keep_valid]. unfold blank.
    assert (Hrest :
      getitems (pre ++ x :: l)
        (map fst
           (filter (fun id => Py.truthy (Py.strip (snd id)))
              (combine (seq (S (length pre)) (length (map text docs)))
                 (map text docs))))
      = Returned (keep_valid docs l)).
    { specialize (IH (pre ++ [x]) l Hl).
      rewrite <- app_assoc, length_app in IH. cbn [length app] in IH.
      rewrite Nat.add_1_r in IH. exact IH. }
    destruct (Py.truthy (Py.strip (text d))); cbn [negb].
    + cbn [map fst getitems].
      rewrite nth_error_app2 by reflexivity.
      rewrite Nat.sub_diag. cbn [nth_error]. now rewrite Hrest.
    + exact Hrest.
Qed.

Lemma valid_indices_getitems {A} (docs : list Document) (l : list A) :
  length l = length docs ->
  getitems l
    (map fst
       (filter (fun id => Py.truthy (Py.strip (snd id)))
          (enumerate (map text docs))))
  = Returned (keep_valid docs l).
Proof. intros H. exact (getitems_keep_valid docs [] l H). Qed.

Lemma keep_valid_map {A} (f : Document -> A) (docs : list Document) :
  keep_valid docs (map f docs) = map f (valid_documents docs).
Proof.
  induction docs as [|d docs IH]; [reflexivity|].
  cbn [map keep_valid valid_documents filter].
  destruct (blank (text d)); cbn [negb map]; now rewrite IH.
Qed.

Lemma keep_valid_length {A} (docs : list Document) : forall l : list A,
  length l = length docs ->
  length (keep_valid docs l) = length (valid_documents docs).
Proof.
  induction docs as [|d docs IH]; intros [|x l] Hl; try discriminate;
    [reflexivity|].
  injection Hl as Hl. cbn [keep_valid valid_documents filter].
  destruct (blank (text d)); cbn [negb length]; now rewrite (IH l Hl).
Qed.

Lemma entries_ids (vdocs : list Document) : forall ids,
  length ids = length vdocs ->
  map entry_id
    (entries (map text vdocs) ids
       (map (fun doc => [("source", source doc)]) vdocs)) = ids.
Proof.
  induction vdocs as [|d vdocs IH]; intros [|i ids] H; try discriminate;
    [reflexivity|].
  injection H as H. cbn. f_equal. now apply IH.
Qed.

Lemma entries_pairs (vdocs : list Document) : forall ids,
  length ids = length vdocs ->
  pairs
    (entries (map text vdocs) ids
       (map (fun doc => [("source", source doc)]) vdocs))
  = map (fun d => (text d, Some (source d))) vdocs.
Proof.
  induction vdocs as [|d vdocs IH]; intros [|i ids] H; try discriminate;
    [reflexivity|].
  injection H as H. cbn [map entries pairs].
  f_equal. now apply IH.
Qed.

(** [store_documents] in one equation. *)
Lemma store_documents_eq (w : World) (docs : list Document) (s : Sys) :
  store_documents w docs s =
  let vdocs := valid_documents docs in
  let ids := stored_ids w s docs in
  let drawn := uuid_count s + length docs in
  match vdocs with
  | [] =>
      (Returned tt,
       mkSys (stdout s ++ ["No valid documents to store."]) [] drawn (sent s))
  | _ :: _ =>
      if distinct ids
      then if max_batch_size w <? length vdocs
           then (Raised (batch_error w (length vdocs)),
                 mkSys (stdout s) [] drawn (sent s))
           else (Returned tt,
                 mkSys (stdout s ++ [stored_line (length vdocs)])
                   (entries (map text vdocs) ids
                      (map (fun doc => [("source", source doc)]) vdocs))
                   drawn (sent s))
      else (Raised (mkExn DuplicateIDError "Expected IDs to be unique"),
            mkSys (stdout s) [] drawn (sent s))
  end.
Proof.
  unfold store_documents. rewrite clear_collection.
  unfold bind at 1. rewrite uuid_for_eq.
  unfold set_uuid_count. cbn [stdout collection uuid_count sent].
  assert (Hids : length (assigned_ids w s docs) = length docs).
  { unfold assigned_ids. now rewrite length_map, length_seq. }
  unfold bind at 1, lift at 1.
  rewrite (valid_indices_getitems docs (map text docs)) by apply length_map.
  unfold bind at 1, lift at 1.
  fold (assigned_ids w s docs).
  rewrite (valid_indices_getitems docs (assigned_ids w s docs) Hids).
  unfold bind at 1, lift at 1.
  rewrite (valid_indices_getitems docs
             (map (fun doc => [("source", source doc)]) docs))
    by apply length_map.
  rewrite !keep_valid_map. fold (stored_ids w s docs).
  pose proof (keep_valid_length docs (assigned_ids w s docs) Hids) as Hlen.
  fold (stored_ids w s docs) in Hlen.
  cbv zeta.
  destruct (valid_documents docs) as [|v vdocs] eqn:Ev; [reflexivity|].
  cbn [map nonempty]. unfold bind, collection_add, print, set_stdout,
    set_collection. cbn [stdout collection uuid_count sent].
  cbn [length] in *. rewrite !length_map, Hlen, Nat.eqb_refl.
  cbn [andb negb map app]. rewrite app_nil_r. unfold stored_line, batch_error.
  destruct (distinct (stored_ids w s docs)); cbn [negb]; [|reflexivity].
  destruct (max_batch_size w <? S (length vdocs)); reflexivity.
Qed.

End IndexFacts.

Module IndexClaims.
Import Pdf Index Spec IndexFacts.

Lemma keep_valid_all {A} (docs : list Document) : forall l : list A,
  length l = length docs ->
  Forall (fun d => blank (text d) = false) docs ->
  keep_valid docs l = l.
Proof.
  induction docs as [|d docs IH]; intros [|x l] Hl Hv; try discriminate;
    [reflexivity|].
  injection Hl as Hl. inversion Hv as [|? ? Hd Hr]; subst.
  cbn [keep_valid]. rewrite Hd. f_equal. now apply IH.
Qed.

Lemma valid_documents_all_blank (docs : list Document) :
  forallb (fun d => blank (text d)) docs = true -> valid_documents docs = [].
Proof.
  induction docs as [|d docs IH]; [reflexivity|].
  cbn [forallb valid_documents filter]. intros H.
  apply andb_true_iff in H as [Hd Hr]. rewrite Hd. cbn [negb]. now apply IH.
Qed.

(** What one call leaves behind, whatever was stored before. *)
Lemma store_documents_once (w : World) (docs : list Document) (s : Sys) :
  distinct (stored_ids w s docs) = true ->
  length (valid_documents docs) <= max_batch_size w ->
  exists s1,
    store_documents w docs s = (Returned tt, s1)
    /\ map entry_id (collection s1) = stored_ids w s docs
    /\ pairs (collection s1) = pairs_of docs
    /\ uuid_count s1 = uuid_count s + length docs.
Proof.
  intros Hd Hb. rewrite store_documents_eq. cbv zeta. rewrite Hd.
  assert (Hlen : length (stored_ids w s docs) = length (valid_documents docs)).
  { apply keep_valid_length. unfold assigned_ids.
    now rewrite length_map, length_seq. }
  apply Nat.ltb_ge in Hb. rewrite Hb.
  unfold pairs_of.
  destruct (valid_documents docs) as [|v vdocs] eqn:Ev.
  - eexists. split; [reflexivity|]. cbn [collection uuid_count].
    destruct (stored_ids w s docs); [now repeat split|discriminate].
  - eexists. split; [reflexivity|]. cbn [collection uuid_count].
    split; [|split; [|reflexivity]].
    + now apply (entries_ids (v :: vdocs)).
    + now apply (entries_pairs (v :: vdocs)).
Qed.

(** A batch larger than the store takes: the add is refused after the
    delete, and the index is left empty. *)
Lemma store_documents_too_many (w : World) (docs : list Document) (s : Sys) :
  distinct (stored_ids w s docs) = true ->
  max_batch_size w < length (valid_documents docs) ->
  store_documents w docs s
  = (Raised (batch_error w (length (valid_documents docs))),
     mkSys (stdout s) [] (uuid_count s + length docs) (sent s)).
Proof.
  intros Hd Hb. rewrite store_documents_eq. cbv zeta. rewrite Hd.
  apply Nat.ltb_lt in Hb. rewrite Hb.
  destruct (valid_documents docs) as [|v vdocs]; [|reflexivity].
  apply Nat.ltb_lt in Hb. cbn in Hb. lia.
Qed.

(** C3, as the code has it.  [store_documents] replaces the whole index,
    for a batch the store takes (the non-blank documents being no more than
    its maximum batch size) and the ids drawn from [uuid4] being distinct,
    as unique ids are: whatever was stored before, after the call the ids
    in the index are exactly the ids this call assigned to the documents it
    stored (all the assigned ids when no document is blank), and the (text,
    source) pairs are those of the non-blank documents, in order.  A second
    run on the same documents leaves the same (text, source) pairs, as many
    entries, and only ids of the second run. *)
Theorem store_documents_full_replace :
  forall (w : World) (docs : list Document) (s : Sys),
    distinct (stored_ids w s docs) = true ->
    length (valid_documents docs) <= max_batch_size w ->
    exists s1,
      store_documents w docs s = (Returned tt, s1)
      /\ map entry_id (collection s1) = stored_ids w s docs
      /\ pairs (collection s1) = pairs_of docs
      /\ (Forall (fun d => blank (text d) = false) docs ->
          map entry_id (collection s1) = assigned_ids w s docs)
      /\ (distinct (stored_ids w s1 docs) = true ->
          exists s2,
            store_documents w docs s1 = (Returned tt, s2)
            /\ map entry_id (collection s2) = stored_ids w s1 docs
            /\ pairs (collection s2) = pairs (collection s1)
            /\ length (collection s2) = length (collection s1)).
Proof.
  intros w docs s Hd Hb.
  destruct (store_documents_once w docs s Hd Hb) as (s1 & H1 & Hids & Hp & Hu).
  exists s1. repeat split; try assumption.
  - intros Hv. rewrite Hids. unfold stored_ids. apply keep_valid_all; [|exact Hv].
    unfold assigned_ids. now rewrite length_map, length_seq.
  - intros Hd2.
    destruct (store_documents_once w docs s1 Hd2 Hb)
      as (s2 & H2 & Hids2 & Hp2 & _).
    exists s2. repeat split; try assumption.
    + now rewrite Hp, Hp2.
    + rewrite <- (length_map (fun e => (entry_document e,
                     assoc "source" (entry_metadata e))) (collection s2)).
      rewrite <- (length_map (fun e => (entry_document e,
                     assoc "source" (entry_metadata e))) (collection s1)).
      fold (pairs (collection s2)). fold (pairs (collection s1)).
      now rewrite Hp, Hp2.
Qed.

Lemma store_documents_full_replace_witness :
  exists s1,
    store_documents Examples.w_files Examples.three_docs Examples.stale
    = (Returned tt, s1)
    /\ map entry_id (collection s1) = ["uuid-0"; "uuid-2"]
    /\ pairs (collection s1)
       = [("alpha", Some "a.pdf"); ("beta", Some "space_facts")]
    /\ exists s2,
         store_documents Examples.w_files Examples.three_docs s1
         = (Returned tt, s2)
         /\ map entry_id (collection s2) = ["uuid-3"; "uuid-5"]
         /\ pairs (collection s2) = pairs (collection s1).
Proof.
  assert (Hb : length (valid_documents Examples.three_docs)
               <= max_batch_size Examples.w_files)
    by (apply Nat.leb_le; vm_compute; reflexivity).
  destruct (store_documents_full_replace Examples.w_files Examples.three_docs
              Examples.stale eq_refl Hb)
    as (s1 & H1 & Hids & Hp & _ & Hsecond).
  exists s1. split; [exact H1|]. split; [exact Hids|]. split; [exact Hp|].
  assert (Hu : uuid_count s1 = 3).
  { rewrite store_documents_eq in H1. now injection H1 as <-. }
  assert (Hd : distinct (stored_ids Examples.w_files s1 Examples.three_docs)
               = true).
  { unfold stored_ids, assigned_ids. now rewrite Hu. }
  destruct (Hsecond Hd) as (s2 & H2 & Hids2 & Hp2 & _).
  exists s2. split; [exact H2|]. split; [|exact Hp2].
  rewrite Hids2. unfold stored_ids, assigned_ids. now rewrite Hu.
Defined.

Lemma distinct_NoDup (l : list string) : NoDup l -> distinct l = true.
Proof.
  induction 1 as [|x l Hx Hl IH]; [reflexivity|].
  cbn [distinct]. rewrite IH, andb_true_r.
  destruct (mem x l) eqn:E; [|reflexivity].
  now apply mem_In in E.
Qed.

Lemma to_uint_not_nil (n : nat) : Nat.to_uint n <> Decimal.Nil.
Proof.
  rewrite <- (Unsigned.of_to n) at 1. rewrite Unsigned.to_of.
  unfold Decimal.unorm. destruct (Decimal.nzhead _); discriminate.
Qed.

Lemma str_of_nat_inj (n m : nat) :
  Py.str_of_nat n = Py.str_of_nat m -> n = m.
Proof.
  unfold Py.str_of_nat. intros H. apply Unsigned.to_uint_inj.
  apply (f_equal NilZero.uint_of_string) in H.
  rewrite !NilZero.usu in H by apply to_uint_not_nil.
  injection H as H. exact H.
Qed.

(** The ids of the example worlds never repeat. *)
Lemma uuid_n_distinct (start len : nat) :
  distinct (map Examples.uuid_n (seq start len)) = true.
Proof.
  apply distinct_NoDup.
  assert (H : NoDup (seq start len)) by apply seq_NoDup.
  induction H as [|x l Hx Hl IH]; cbn [map]; constructor; [|exact IH].
  rewrite in_map_iff. intros (y & E & Hy).
  unfold Examples.uuid_n in E. cbn [append] in E.
  injection E as E. apply str_of_nat_inj in E. now subst.
Qed.

(** C3 fails as stated.  With one document more than the store takes in a
    batch, [store_documents] deletes what the index held and then raises
    when it adds: the index is left empty, and holds none of the ids the
    call assigned. *)
Lemma store_documents_refuses_large_batch :
  store_documents Examples.w_files Examples.too_many_docs Examples.stale
  = (Raised (mkExn ValueError
               "Batch size 5462 exceeds maximum batch size 5461"),
     mkSys [] [] 5462 [])
  /\ stored_ids Examples.w_files Examples.stale Examples.too_many_docs <> [].
Proof.
  assert (Hs : stored_ids Examples.w_files Examples.stale
                 Examples.too_many_docs
               = map Examples.uuid_n (seq 0 5462))
    by (vm_compute; reflexivity).
  split.
  - rewrite store_documents_too_many.
    + vm_compute. reflexivity.
    + rewrite Hs. apply uuid_n_distinct.
    + apply Nat.ltb_lt. vm_compute. reflexivity.
  - rewrite Hs. vm_compute. discriminate.
Qed.

(** C10.  When every document is blank (empty or white space only),
    [store_documents] still empties the index before it finds that nothing
    is left to store: it returns, the index is empty whatever it held, the
    add step is skipped and "No valid documents to store." is printed. *)
Theorem store_documents_all_blank :
  forall (w : World) (docs : list Document) (s : Sys),
    forallb (fun d => blank (text d)) docs = true ->
    store_documents w docs s
    = (Returned tt,
       mkSys (stdout s ++ ["No valid documents to store."]) []
         (uuid_count s + length docs) (sent s)).
Proof.
  intros w docs s H. rewrite store_documents_eq. cbv zeta.
  now rewrite (valid_documents_all_blank docs H).
Qed.

Lemma store_documents_all_blank_witness :
  store_documents Examples.w_files Examples.blank_docs Examples.stale
  = (Returned tt, mkSys ["No valid documents to store."] [] 2 []).
Proof.
  apply (store_documents_all_blank Examples.w_files Examples.blank_docs
           Examples.stale).
  reflexivity.
Defined.

End IndexClaims.

(* ===================================================================== *)
(** ** GenerationClient: the properties *)
(* ===================================================================== *)

Module LlamaFacts.
Import Llama Spec.

Lemma probe_eq (w : World) (url : string) (s : Sys) :
  probe w url s =
  (match requests_post w (probe_request url) with
   | Returned r =>
       Returned (if (status_code r =? 200)%Z then Some url else None)
   | Raised e => if is_RequestException e then Returned None else Raised e
   end,
   add_sent [probe_request url] s).
Proof.
  unfold probe, try_except, bind, post, probe_request, probe_body, add_sent,
    set_sent.
  destruct (requests_post w _) as [r|e].
  - destruct (status_code r =? 200)%Z; reflexivity.
  - destruct (is_RequestException e); reflexivity.
Qed.

Lemma add_sent_twice (a b : list Request) (s : Sys) :
  add_sent b (add_sent a s) = add_sent (a ++ b) s.
Proof. unfold add_sent. cbn. now rewrite app_assoc. Qed.

(** [check_llama_server] in one equation. *)
Lemma check_llama_server_eq (w : World) (s : Sys) :
  check_llama_server w s =
  if answers w native_url
  then (Returned (Some native_url), add_sent [probe_request native_url] s)
  else if down w native_url
  then (Returned (if answers w openai_url then Some openai_url else None),
        add_sent [probe_request native_url; probe_request openai_url] s)
  else (Returned None, add_sent [probe_request native_url] s).
Proof.
  unfold check_llama_server, try_except, endpoints.
  cbn [probe_loop]. unfold bind at 1. rewrite probe_eq.
  unfold answers, down.
  destruct (requests_post w (probe_request native_url)) as [r|e].
  - destruct (status_code r =? 200)%Z; cbn [negb]; [reflexivity|].
    unfold bind at 1. rewrite probe_eq, add_sent_twice. cbn [app].
    destruct (requests_post w (probe_request openai_url)) as [r2|e2].
    + destruct (status_code r2 =? 200)%Z; reflexivity.
    + destruct (is_RequestException e2); reflexivity.
  - destruct (is_RequestException e); [|reflexivity].
    unfold bind at 1. rewrite probe_eq, add_sent_twice. cbn [app].
    destruct (requests_post w (probe_request openai_url)) as [r2|e2].
    + destruct (status_code r2 =? 200)%Z; reflexivity.
    + destruct (is_RequestException e2); reflexivity.
Qed.

(** The endpoint bound is one of the two candidates. *)
Lemma check_llama_server_bound (w : World) (s s1 : Sys) (u : string) :
  check_llama_server w s = (Returned (Some u), s1) ->
  (u = native_url /\ answers w native_url = true
   /\ s1 = add_sent [probe_request native_url] s)
  \/ (u = openai_url /\ answers w native_url = false
      /\ down w native_url = true /\ answers w openai_url = true
      /\ s1 = add_sent [probe_request native_url; probe_request openai_url] s).
Proof.
  rewrite check_llama_server_eq.
  destruct (answers w native_url).
  - intros [= <- <-]. now left.
  - destruct (down w native_url); [|discriminate].
    destruct (answers w openai_url); [|discriminate].
    intros [= <- <-]. right. now repeat split.
Qed.

(** The try block of [query_llama], lines 168-184. *)
Lemma generation_eq (w : World) (endpoint : string)
    (body : list (string * json)) (s : Sys) :
  try_except
    (try_except
       (bind (post w endpoint body 30)
          (fun response =>
             bind (raise_for_status response)
               (fun _ =>
                  bind (lift (json_body response))
                    (fun result => lift (read_answer endpoint result)))))
       is_RequestException
       (fun e => ret ("Error querying llama.cpp server: " ++ exn_msg e)%string))
    is_ValueError
    (fun e => ret ("Error parsing server response: " ++ exn_msg e)%string) s
  = (reply endpoint (requests_post w (mkRequest endpoint body 30)),
     add_sent [mkRequest endpoint body 30] s).
Proof.
  unfold try_except, bind, post, raise_for_status, lift, ret, raise, reply,
    handled, add_sent, set_sent.
  destruct (requests_post w _) as [r|e].
  - destruct ((400 <=? status_code r) && (status_code r <? 600))%Z.
    + reflexivity.
    + destruct (json_body r) as [j|e].
      * destruct (read_answer endpoint j) as [a|e]; [reflexivity|].
        destruct (is_RequestException e); [reflexivity|].
        destruct (is_ValueError e); reflexivity.
      * destruct (is_RequestException e); [reflexivity|].
        destruct (is_ValueError e); reflexivity.
  - destruct (is_RequestException e); [reflexivity|].
    destruct (is_ValueError e); reflexivity.
Qed.

(** [query_llama] once an endpoint is bound: one generation request, and
    the reply read from the backend's reaction. *)
Lemma query_llama_bound (w : World) (prompt context : string)
    (sources : list string) (s s1 : Sys) (u : string) :
  check_llama_server w s = (Returned (Some u), s1) ->
  query_llama w prompt context sources s
  = (reply u (requests_post w (generation_request u prompt context sources)),
     add_sent [generation_request u prompt context sources] s1).
Proof.
  intros H. unfold query_llama. rewrite (bind_returned _ _ _ _ _ H).
  assert (Hu : Py.truthy u = true).
  { destruct (check_llama_server_bound w s s1 u H) as [[-> _]|[-> _]];
      reflexivity. }
  rewrite Hu. cbn [negb]. cbv zeta.
  unfold generation_request. apply generation_eq.
Qed.

Lemma query_llama_unbound (w : World) (prompt context : string)
    (sources : list string) (s s1 : Sys) :
  check_llama_server w s = (Returned None, s1) ->
  query_llama w prompt context sources s = (Returned unreachable_msg, s1).
Proof.
  intros H. unfold query_llama. now rewrite (bind_returned _ _ _ _ _ H).
Qed.

End LlamaFacts.

Module LlamaClaims.
Import Llama Spec LlamaFacts.

Lemma endswith_native : Py.endswith native_url "/completion" = true.
Proof. reflexivity. Qed.

Lemma endswith_openai : Py.endswith openai_url "/completion" = false.
Proof. reflexivity. Qed.

Lemma down_not_answers (w : World) (url : string) :
  down w url = true -> answers w url = false.
Proof.
  unfold down, answers. destruct (requests_post w _) as [r|e]; [|reflexivity].
  now destruct (status_code r =? 200)%Z.
Qed.

(** A trial request that fails with a fault other than a transport fault
    ends the discovery: the outer handler returns [None]. *)
Lemma check_llama_server_gives_up (w : World) (s : Sys) (e : Exn) :
  requests_post w (probe_request native_url) = Raised e ->
  is_RequestException e = false ->
  check_llama_server w s
  = (Returned None, add_sent [probe_request native_url] s).
Proof.
  intros H He. rewrite check_llama_server_eq. unfold answers, down.
  now rewrite H, He.
Qed.

(** C6.  [check_llama_server] tries the native [/completion] endpoint and
    then the OpenAI-style [/v1/completions] endpoint, each with the trial
    request [{"prompt": "test", "max_tokens": 1}] and timeout 5, and stops at
    the first that answers with status 200: it returns that candidate, and
    [None] when no candidate answers 200.  It never raises, and the requests
    it makes are the trial requests of a prefix of the candidate list.  When
    the native candidate is down (transport fault, or another status) and
    the OpenAI-style one answers, the OpenAI-style endpoint is bound, and
    [query_llama] then sends its generation request there in the
    OpenAI-style shape (token budget under [max_tokens]). *)
Theorem check_llama_server_first_answering :
  forall (w : World) (s : Sys),
    endpoints = ["http://localhost:8000/completion";
                 "http://localhost:8000/v1/completions"]
    /\ (answers w native_url = true ->
        check_llama_server w s
        = (Returned (Some native_url), add_sent [probe_request native_url] s))
    /\ (down w native_url = true -> answers w openai_url = true ->
        check_llama_server w s
        = (Returned (Some openai_url),
           add_sent [probe_request native_url; probe_request openai_url] s)
        /\ forall prompt context sources,
             exists r s',
               query_llama w prompt context sources s = (r, s')
               /\ sent s'
                  = sent s ++
                    [ probe_request native_url; probe_request openai_url;
                      mkRequest openai_url
                        [("prompt", JStr (full_prompt prompt context sources));
                         ("max_tokens", JInt 500);
                         ("temperature", JFloat 0.7);
                         ("top_p", JFloat 0.95);
                         ("stop", JArr [JStr nl2])] 30 ])
    /\ (answers w native_url = false -> answers w openai_url = false ->
        exists s', check_llama_server w s = (Returned None, s'))
    /\ (forall u s',
          check_llama_server w s = (Returned (Some u), s') ->
          In u endpoints /\ answers w u = true
          /\ (u = openai_url -> answers w native_url = false))
    /\ (exists r n,
          check_llama_server w s
          = (Returned r, add_sent (map probe_request (firstn n endpoints)) s)).
Proof.
  intros w s. split; [reflexivity|]. split; [|split; [|split; [|split]]].
  - intros H. now rewrite check_llama_server_eq, H.
  - intros Hd Ha.
    assert (Hc : check_llama_server w s
                 = (Returned (Some openai_url),
                    add_sent [probe_request native_url;
                              probe_request openai_url] s)).
    { now rewrite check_llama_server_eq, (down_not_answers _ _ Hd), Hd, Ha. }
    split; [exact Hc|].
    intros prompt context sources.
    rewrite (query_llama_bound w prompt context sources _ _ _ Hc).
    eexists. eexists. split; [reflexivity|].
    cbn [add_sent sent]. rewrite <- app_assoc. reflexivity.
  - intros H1 H2. rewrite check_llama_server_eq, H1, H2.
    destruct (down w native_url); eauto.
  - intros u s' H.
    destruct (check_llama_server_bound w s s' u H)
      as [(-> & Ha & _)|(-> & Hn & _ & Ha & _)].
    + split; [now left|]. split; [exact Ha|]. discriminate.
    + split; [right; now left|]. split; [exact Ha|]. intros _. exact Hn.
  - rewrite check_llama_server_eq.
    destruct (answers w native_url).
    + now exists (Some native_url), 1.
    + destruct (down w native_url).
      * now exists (if answers w openai_url then Some openai_url else None), 2.
      * now exists None, 1.
Qed.

Lemma check_llama_server_first_answering_witness :
  check_llama_server Examples.w_fallback Examples.start
  = (Returned (Some "http://localhost:8000/v1/completions"),
     mkSys [] [] 0
       [ mkRequest "http://localhost:8000/completion"
           [("prompt", JStr "test"); ("max_tokens", JInt 1)] 5;
         mkRequest "http://localhost:8000/v1/completions"
           [("prompt", JStr "test"); ("max_tokens", JInt 1)] 5 ]).
Proof.
  apply (proj1 (proj2 (proj2 (check_llama_server_first_answering
                                Examples.w_fallback Examples.start)))
           eq_refl eq_refl).
Defined.

(** C7.  Once an endpoint is bound, [query_llama] sends one generation
    request to it, with timeout 30, whose body depends on the endpoint: for
    the native endpoint the token budget stands under [n_predict] (and there
    is no [max_tokens]), for the OpenAI-style endpoint under [max_tokens]
    (and there is no [n_predict]).  In both shapes the budget is 500, the
    temperature 0.7, top-p 0.95 and the stop list holds the double newline. *)
Theorem query_llama_payload_shape :
  forall (w : World) (prompt context : string) (sources : list string)
         (s s1 : Sys) (endpoint : string),
    check_llama_server w s = (Returned (Some endpoint), s1) ->
    exists r body,
      query_llama w prompt context sources s
      = (r, add_sent [mkRequest endpoint body 30] s1)
      /\ assoc "temperature" body = Some (JFloat 0.7)
      /\ assoc "top_p" body = Some (JFloat 0.95)
      /\ assoc "stop" body = Some (JArr [JStr (Py.nl ++ Py.nl)])
      /\ (endpoint = native_url \/ endpoint = openai_url)
      /\ (endpoint = native_url ->
          assoc "n_predict" body = Some (JInt 500)
          /\ assoc "max_tokens" body = None)
      /\ (endpoint = openai_url ->
          assoc "max_tokens" body = Some (JInt 500)
          /\ assoc "n_predict" body = None).
Proof.
  intros w prompt context sources s s1 endpoint H.
  rewrite (query_llama_bound w prompt context sources s s1 endpoint H).
  unfold generation_request.
  destruct (check_llama_server_bound w s s1 endpoint H) as [[-> _]|[-> _]];
    eexists; eexists; (split; [reflexivity|]);
    unfold payload; rewrite ?endswith_native, ?endswith_openai;
    repeat split; auto; discriminate.
Qed.

Lemma query_llama_payload_shape_witness :
  exists r body,
    query_llama Examples.w_native "q" "c" ["a.pdf"] Examples.start
    = (r, add_sent [mkRequest native_url body 30]
            (add_sent [probe_request native_url] Examples.start))
    /\ assoc "n_predict" body = Some (JInt 500)
    /\ assoc "max_tokens" body = None.
Proof.
  destruct (query_llama_payload_shape Examples.w_native "q" "c" ["a.pdf"]
              Examples.start
              (add_sent [probe_request native_url] Examples.start)
              native_url eq_refl)
    as (r & body & H & _ & _ & _ & _ & Hn & _).
  exists r, body. split; [exact H|]. exact (Hn eq_refl).
Defined.

(** C8.  The prompt of the generation request [query_llama] sends is
    "Context: {context}\n\nQuestion: {question}\n\nBased on the provided
    context, please answer the question:\nSources: {sources}\nAnswer:", the
    sources joined with ", ". *)
Theorem query_llama_prompt :
  forall (w : World) (question context : string) (sources : list string)
         (s s1 : Sys) (endpoint : string),
    check_llama_server w s = (Returned (Some endpoint), s1) ->
    exists r body,
      query_llama w question context sources s
      = (r, add_sent [mkRequest endpoint body 30] s1)
      /\ assoc "prompt" body
         = Some (JStr ("Context: " ++ context ++ "

Question: " ++ question ++ "

Based on the provided context, please answer the question:
Sources: " ++ Py.join ", " sources ++ "
Answer:")%string).
Proof.
  intros w question context sources s s1 endpoint H.
  rewrite (query_llama_bound w question context sources s s1 endpoint H).
  unfold generation_request.
  eexists; eexists; (split; [reflexivity|]).
  assert (Hp : assoc "prompt" (payload endpoint
                                 (full_prompt question context sources))
               = Some (JStr (full_prompt question context sources))).
  { unfold payload. now destruct (Py.endswith endpoint "/completion"). }
  rewrite Hp. reflexivity.
Qed.

Lemma query_llama_prompt_witness :
  exists r body,
    query_llama Examples.w_fallback "When did Apollo 11 land?" "first second"
      ["a.pdf"; "space_facts"] Examples.start
    = (r, add_sent [mkRequest openai_url body 30]
            (add_sent [probe_request native_url; probe_request openai_url]
               Examples.start))
    /\ assoc "prompt" body
       = Some (JStr "Context: first second

Question: When did Apollo 11 land?

Based on the provided context, please answer the question:
Sources: a.pdf, space_facts
Answer:").
Proof.
  exact (query_llama_prompt Examples.w_fallback "When did Apollo 11 land?"
           "first second" ["a.pdf"; "space_facts"] Examples.start
           (add_sent [probe_request native_url; probe_request openai_url]
              Examples.start)
           openai_url eq_refl).
Defined.

End LlamaClaims.

Module GenerationFaults.
Import Llama Spec LlamaFacts.

(** The failures [query_llama] turns into a string, with an endpoint
    bound: a transport fault and a 4xx/5xx status give the "querying"
    message, a body that is no JSON gives the "parsing" message. *)
Lemma query_llama_handled_failures (w : World) (prompt context : string)
    (sources : list string) (s s1 : Sys) (u : string) :
  check_llama_server w s = (Returned (Some u), s1) ->
  let request := generation_request u prompt context sources in
  let s2 := add_sent [request] s1 in
  (forall e, requests_post w request = Raised e ->
             is_RequestException e = true ->
             query_llama w prompt context sources s
             = (Returned ("Error querying llama.cpp server: " ++ exn_msg e)%string,
                s2))
  /\ (forall r, requests_post w request = Returned r ->
                (400 <= status_code r < 600)%Z ->
                query_llama w prompt context sources s
                = (Returned ("Error querying llama.cpp server: "
                             ++ http_error_msg r)%string, s2))
  /\ (forall r e, requests_post w request = Returned r ->
                  (status_code r < 400)%Z ->
                  json_body r = Raised e ->
                  is_RequestException e = false ->
                  is_ValueError e = true ->
                  query_llama w prompt context sources s
                  = (Returned ("Error parsing server response: "
                               ++ exn_msg e)%string, s2)).
Proof.
  intros H request s2. subst request s2.
  rewrite (query_llama_bound w prompt context sources s s1 u H).
  repeat split.
  - intros e He Hc. rewrite He. cbn [reply]. unfold handled. now rewrite Hc.
  - intros r Hr [Hlo Hhi]. rewrite Hr. cbn [reply].
    apply Z.leb_le in Hlo. apply Z.ltb_lt in Hhi. now rewrite Hlo, Hhi.
  - intros r e Hr Hs He Hc Hv. rewrite Hr. cbn [reply].
    assert (Hlo : (400 <=? status_code r)%Z = false) by (apply Z.leb_gt; lia).
    rewrite Hlo, He. cbn [andb]. unfold handled. now rewrite Hc, Hv.
Qed.

(** C2.  [query_llama] raises on some response bodies.  With the
    OpenAI-style endpoint bound and the backend answering 200 with
    [{"choices": [{}]}], [result['choices'][0]['text']] raises a KeyError,
    which neither handler catches; with the native endpoint bound and the
    body [{"content": null}], [None.strip()] raises an AttributeError.  A
    native body without [content] gives the empty string. *)
Theorem query_llama_raises_on_unexpected_body :
  query_llama Examples.w_no_text "q" "c" ["a.pdf"] Examples.start
  = (Raised (mkExn KeyError "'text'"),
     add_sent
       [ probe_request native_url; probe_request openai_url;
         generation_request openai_url "q" "c" ["a.pdf"] ]
       Examples.start)
  /\ query_llama Examples.w_null_content "q" "c" ["a.pdf"] Examples.start
     = (Raised (mkExn AttributeError
                  "'NoneType' object has no attribute 'strip'"),
        add_sent
          [ probe_request native_url;
            generation_request native_url "q" "c" ["a.pdf"] ]
          Examples.start)
  /\ query_llama Examples.w_no_content "q" "c" ["a.pdf"] Examples.start
     = (Returned "",
        add_sent
          [ probe_request native_url;
            generation_request native_url "q" "c" ["a.pdf"] ]
          Examples.start).
Proof. repeat split. Qed.

End GenerationFaults.

(* ===================================================================== *)
(** ** RagPipeline: the properties *)
(* ===================================================================== *)

Module RagClaims.
Import Index Llama Rag Spec.

Lemma bind_ret_r {A} (m : M A) (s : Sys) : bind m (fun a => ret a) s = m s.
Proof. unfold bind, ret. now destruct (m s) as [[a|e] s']. Qed.

(** [retrieve_documents] reads the first row of the documents and of the
    metadatas of the query result; it leaves the state as it is. *)
Lemma retrieve_documents_eq (w : World) (query : string) (n : nat) (s : Sys) :
  retrieve_documents w query n s =
  (match collection_query w (collection s) query n with
   | Raised e => Raised e
   | Returned results =>
       match first_row (qr_documents results) with
       | Raised e => Raised e
       | Returned documents =>
           match first_row (qr_metadatas results) with
           | Raised e => Raised e
           | Returned metas =>
               match sources_of metas with
               | Raised e => Raised e
               | Returned sources => Returned (documents, sources)
               end
           end
       end
   end, s).
Proof.
  unfold retrieve_documents, bind, lift, ret.
  destruct (collection_query w (collection s) query n) as [results|e];
    [|reflexivity].
  destruct (first_row (qr_documents results)); [|reflexivity].
  destruct (first_row (qr_metadatas results)); [|reflexivity].
  destruct (sources_of _); reflexivity.
Qed.

(** A query result without documents stops [retrieve_documents] at
    [results['documents'][0]]. *)
Lemma rag_pipeline_no_documents (w : World) (query : string) (s : Sys)
    (metadatas : option (list (list (list (string * string))))) :
  collection_query w (collection s) query 3
  = Returned (mkQueryResult None metadatas) ->
  rag_pipeline w query s
  = (Raised (mkExn TypeError "'NoneType' object is not subscriptable"), s).
Proof.
  intros H. unfold rag_pipeline.
  apply bind_raised. now rewrite retrieve_documents_eq, H.
Qed.

(** C1.  [retrieve_documents] asks the collection for the metadatas only
    ([include=["metadatas"]], line 111) and then reads the documents of the
    result (line 113).  With a collection that gives only what was asked
    for, [rag_pipeline] raises for every query and every state of the
    index: either the fault of the query itself or, when the query
    succeeds, TypeError.  It never returns a string, the state is as before
    the call, and so no context is joined and no request reaches the
    backend. *)
Theorem rag_pipeline_raises_without_documents :
  forall (w : World) (query : string) (s : Sys),
    metadatas_only w ->
    exists e : Exn,
      rag_pipeline w query s = (Raised e, s)
      /\ (collection_query w (collection s) query 3 = Raised e
          \/ ((exists r, collection_query w (collection s) query 3 = Returned r)
              /\ e = mkExn TypeError "'NoneType' object is not subscriptable")).
Proof.
  intros w query s Hw.
  destruct (collection_query w (collection s) query 3) as [r|e] eqn:Hq.
  - exists (mkExn TypeError "'NoneType' object is not subscriptable").
    split.
    + unfold rag_pipeline. apply bind_raised.
      rewrite retrieve_documents_eq, Hq.
      now rewrite (Hw _ _ _ _ Hq).
    + right. split; [now exists r | reflexivity].
  - exists e. split; [|now left].
    unfold rag_pipeline. apply bind_raised.
    now rewrite retrieve_documents_eq, Hq.
Qed.

Lemma rag_pipeline_raises_without_documents_witness :
  metadatas_only Examples.w_no_documents
  /\ rag_pipeline Examples.w_no_documents "When did Apollo 11 land?"
       Examples.start
     = (Raised (mkExn TypeError "'NoneType' object is not subscriptable"),
        Examples.start).
Proof.
  assert (Hw : metadatas_only Examples.w_no_documents).
  { intros stored query n r H. simpl in H.
    injection H as <-. reflexivity. }
  split; [exact Hw|].
  destruct (rag_pipeline_raises_without_documents Examples.w_no_documents
              "When did Apollo 11 land?" Examples.start Hw)
    as [e [He [Hf | [_ ->]]]].
  - discriminate Hf.
  - exact He.
Defined.

(** A fault of the index query itself leaves [rag_pipeline] as it is:
    neither [retrieve_documents] nor [rag_pipeline] has a handler. *)
Lemma rag_pipeline_retrieval_fault (w : World) (query : string) (s : Sys)
    (e : Exn) :
  collection_query w (collection s) query 3 = Raised e ->
  rag_pipeline w query s = (Raised e, s).
Proof.
  intros H. unfold rag_pipeline.
  apply bind_raised. now rewrite retrieve_documents_eq, H.
Qed.

End RagClaims.

(* ===================================================================== *)
(** ** More about the extraction and the corpus *)
(* ===================================================================== *)

Module StripFacts.
Import Spec More.
Local Open Scope string_scope.

Lemma lstrip_head s :
  Py.lstrip s = ""
  \/ exists c r, Py.lstrip s = String c r /\ Py.isspace c = false.
Proof.
  induction s as [|c r IH]; [now left|].
  cbn [Py.lstrip]. destruct (Py.isspace c) eqn:E; [exact IH|].
  right. now exists c, r.
Qed.

Lemma rstrip_head c r :
  Py.isspace c = false -> exists r', Py.rstrip (String c r) = String c r'.
Proof.
  intros H. cbn [Py.rstrip]. destruct (Py.rstrip r) as [|d r'].
  - rewrite H. now exists "".
  - now exists (String d r').
Qed.

Lemma rstrip_idem s : Py.rstrip (Py.rstrip s) = Py.rstrip s.
Proof.
  induction s as [|c r IH]; [reflexivity|].
  cbn [Py.rstrip]. destruct (Py.rstrip r) as [|d r'] eqn:E.
  - destruct (Py.isspace c) eqn:Ec; [reflexivity|].
    cbn [Py.rstrip]. now rewrite Ec.
  - change (Py.rstrip (String c (String d r')))
      with (match Py.rstrip (String d r') with
            | "" => if Py.isspace c then "" else String c ""
            | x => String c x
            end).
    now rewrite IH.
Qed.

(** Stripping twice is stripping once. *)
Lemma strip_idem s : Py.strip (Py.strip s) = Py.strip s.
Proof.
  unfold Py.strip.
  destruct (lstrip_head s) as [E|(c & r & E & Hc)]; rewrite E.
  - reflexivity.
  - destruct (rstrip_head c r Hc) as [r' Hr]. rewrite Hr.
    cbn [Py.lstrip]. rewrite Hc, <- Hr. apply rstrip_idem.
Qed.

Lemma lstrip_ink s : has_ink (Py.lstrip s) = has_ink s.
Proof.
  induction s as [|c r IH]; [reflexivity|].
  cbn [Py.lstrip has_ink]. destruct (Py.isspace c) eqn:E; [exact IH|].
  cbn [has_ink]. now rewrite E.
Qed.

Lemma rstrip_ink s : Py.truthy (Py.rstrip s) = has_ink s.
Proof.
  induction s as [|c r IH]; [reflexivity|].
  cbn [Py.rstrip has_ink]. destruct (Py.rstrip r) as [|d r'].
  - cbn in IH. rewrite <- IH. now destruct (Py.isspace c).
  - cbn in IH. rewrite <- IH. cbn. now rewrite orb_true_r.
Qed.

(** A text is blank exactly when it has no ink. *)
Lemma blank_ink s : blank s = negb (has_ink s).
Proof. unfold blank, Py.strip. now rewrite rstrip_ink, lstrip_ink. Qed.

Lemma has_ink_app a b : has_ink (a ++ b) = has_ink a || has_ink b.
Proof.
  induction a as [|c a IH]; [reflexivity|].
  cbn [append has_ink]. now rewrite IH, orb_assoc.
Qed.

Lemma has_ink_join sep l x :
  In x l -> has_ink x = true -> has_ink (Py.join sep l) = true.
Proof.
  unfold Py.join. induction l as [|y l IH]; intros Hin Hx; [contradiction|].
  destruct l as [|z l].
  - destruct Hin as [->|[]]. exact Hx.
  - change (String.concat sep (y :: z :: l))
      with (y ++ sep ++ String.concat sep (z :: l)).
    rewrite !has_ink_app. destruct Hin as [->|Hin].
    + now rewrite Hx.
    + rewrite (IH Hin Hx). now rewrite !orb_true_r.
Qed.

End StripFacts.

Module SplitJoin.
Import Spec.
Local Open Scope string_scope.

Lemma split_one s : Py.count Py.LF s = 0 -> Py.split Py.LF s = [s].
Proof.
  induction s as [|c r IH]; [reflexivity|].
  cbn [Py.count Py.split]. destruct (Ascii.eqb c Py.LF); [discriminate|].
  intros H. now rewrite (IH H).
Qed.

Lemma split_app a b :
  Py.count Py.LF a = 0 ->
  Py.split Py.LF (a ++ String Py.LF b) = a :: Py.split Py.LF b.
Proof.
  induction a as [|c r IH].
  - intros _. apply PyFacts.split_sep.
  - cbn [Py.count append Py.split]. destruct (Ascii.eqb c Py.LF); [discriminate|].
    intros H. now rewrite (IH H).
Qed.

(** Splitting at the line breaks undoes joining with them, for lines that
    hold no line break. *)
Lemma split_join l :
  l <> [] -> Forall (fun p => Py.count Py.LF p = 0) l ->
  Py.split Py.LF (Py.join Py.nl l) = l.
Proof.
  unfold Py.join. induction l as [|x l IH]; intros Hne H; [contradiction|].
  inversion H as [|? ? Hx Hl]; subst. destruct l as [|y l].
  - now apply split_one.
  - change (String.concat Py.nl (x :: y :: l))
      with (x ++ String Py.LF (String.concat Py.nl (y :: l))).
    rewrite (split_app _ _ Hx). f_equal. now apply IH.
Qed.

End SplitJoin.

Module CorpusFacts.
Import Pdf Spec More.
Local Open Scope string_scope.

(** X1.  The lines of a cleaned page are the lines of the page, with their
    pairs of spaces collapsed, stripped: there are as many of them as in the
    page's text, and stripping any of them again changes nothing (no line
    of the result begins or ends with white space). *)
Theorem clean_lines_are_stripped :
  forall t : string,
    Py.split Py.LF (clean t)
    = map Py.strip (Py.split Py.LF (Py.replace "  " " " t))
    /\ length (Py.split Py.LF (clean t)) = length (Py.split Py.LF t)
    /\ Forall (fun line => Py.strip line = line) (Py.split Py.LF (clean t)).
Proof.
  intros t.
  assert (H : Py.split Py.LF (clean t)
              = map Py.strip (Py.split Py.LF (Py.replace "  " " " t))).
  { unfold clean. apply SplitJoin.split_join.
    - intros E. apply map_eq_nil in E. now apply PyFacts.split_nonempty in E.
    - apply Forall_map.
      eapply Forall_impl; [|apply LineBreaks.split_pieces].
      intros p Hp. cbv beta in Hp. unfold Py.strip.
      pose proof (LineBreaks.rstrip_count (Py.lstrip p)) as H1.
      pose proof (LineBreaks.lstrip_count p) as H2. lia. }
  split; [exact H|]. split.
  - rewrite H, length_map, !LineBreaks.split_length.
    now rewrite LineBreaks.replace_count.
  - rewrite H. apply Forall_map, Forall_forall.
    intros p _. apply StripFacts.strip_idem.
Qed.

Lemma page_blocks_placeholder texts : forall n,
  In None texts \/ In (Some "") texts ->
  exists b, In b (page_blocks n texts) /\ has_ink b = true.
Proof.
  induction texts as [|t texts IH]; intros n H.
  - destruct H as [[]|[]].
  - cbn [page_blocks].
    assert (Hcases : t = None \/ t = Some "" \/
                     (In None texts \/ In (Some "") texts)).
    { destruct H as [[->|H]|[->|H]]; auto. }
    destruct Hcases as [->|[->|Hrest]].
    + exists (page_block n None). split; [now left|reflexivity].
    + exists (page_block n (Some "")). split; [now left|reflexivity].
    + destruct (IH (S n) Hrest) as (b & Hb & Hi).
      exists b. split; [now right|exact Hi].
Qed.

(** The text of a parseable file with a page that yields no text is not
    blank: the placeholder of that page is text. *)
Lemma textless_page_not_blank (w : World) (pdf_path : string)
    (texts : list (option string)) :
  parsed w pdf_path = Returned texts ->
  In None texts \/ In (Some "") texts ->
  blank (extracted w pdf_path) = false.
Proof.
  intros Hp Hin.
  rewrite StripFacts.blank_ink. unfold extracted. rewrite Hp.
  destruct (page_blocks_placeholder texts 1 Hin) as (b & Hb & Hi).
  now rewrite (StripFacts.has_ink_join " " _ b Hb Hi).
Qed.

Lemma rstrip_has_ink s : has_ink (Py.rstrip s) = has_ink s.
Proof.
  induction s as [|c r IH]; [reflexivity|].
  cbn [Py.rstrip has_ink]. destruct (Py.rstrip r) as [|d r'].
  - cbn [has_ink] in IH. rewrite <- IH.
    destruct (Py.isspace c) eqn:E; cbn [has_ink negb orb]; [reflexivity|].
    now rewrite E.
  - cbn [has_ink]. now rewrite <- IH.
Qed.

Lemma strip_has_ink s : has_ink (Py.strip s) = has_ink s.
Proof. unfold Py.strip. now rewrite rstrip_has_ink, StripFacts.lstrip_ink. Qed.

Lemma replace_has_ink s : has_ink (Py.replace "  " " " s) = has_ink s.
Proof.
  induction s as [|c|c d r IHr IHd] using PyFacts.string_pair_ind.
  - reflexivity.
  - destruct (Ascii.eqb c " "%char) eqn:E.
    + apply Ascii.eqb_eq in E. now subst c.
    + rewrite PyFacts.replace_single by (now rewrite E). reflexivity.
  - destruct (Ascii.eqb c " "%char && starts_with_space (String d r)) eqn:E.
    + apply andb_true_iff in E as [Ec Ed]. cbn in Ed.
      apply Ascii.eqb_eq in Ec, Ed. subst c d.
      rewrite PyFacts.replace_pair. cbn [has_ink]. now rewrite IHr.
    + rewrite PyFacts.replace_single by exact E.
      cbn [has_ink]. now rewrite IHd.
Qed.

Lemma join_has_ink sep l :
  has_ink sep = false ->
  has_ink (Py.join sep l) = existsb has_ink l.
Proof.
  intros Hs. unfold Py.join. induction l as [|x l IH]; [reflexivity|].
  destruct l as [|y l].
  - cbn. now rewrite orb_false_r.
  - change (String.concat sep (x :: y :: l))
      with (x ++ sep ++ String.concat sep (y :: l)).
    rewrite !StripFacts.has_ink_app, Hs, IH. reflexivity.
Qed.

Lemma split_has_ink s : existsb has_ink (Py.split Py.LF s) = has_ink s.
Proof.
  induction s as [|c r IH]; [reflexivity|].
  cbn [Py.split has_ink]. destruct (Ascii.eqb c Py.LF) eqn:E.
  - apply Ascii.eqb_eq in E. subst c. cbn [existsb has_ink]. exact IH.
  - destruct (Py.split Py.LF r) as [|h t].
    + cbn [existsb has_ink] in *. rewrite <- IH. now rewrite !orb_false_r.
    + cbn [existsb has_ink] in *. rewrite <- IH. now rewrite orb_assoc.
Qed.

Lemma stripped_has_ink l :
  existsb has_ink (map Py.strip l) = existsb has_ink l.
Proof.
  induction l as [|x l IH]; [reflexivity|].
  cbn [map existsb]. now rewrite strip_has_ink, IH.
Qed.

Lemma clean_has_ink t : has_ink (clean t) = has_ink t.
Proof.
  unfold clean. rewrite join_has_ink by reflexivity.
  now rewrite stripped_has_ink, split_has_ink, replace_has_ink.
Qed.

Lemma page_blocks_ink texts : forall n,
  existsb has_ink (page_blocks n texts) = negb (forallb white_page texts).
Proof.
  induction texts as [|t texts IH]; intros n; [reflexivity|].
  cbn [page_blocks existsb forallb]. rewrite IH, negb_andb. f_equal.
  destruct t as [[|c t]|]; try reflexivity.
  cbn [white_page]. rewrite negb_involutive.
  change (page_block n (Some (String c t)))
    with (Py.join Py.nl (map normalized_line (Py.split Py.LF (String c t)))).
  rewrite <- (PdfFacts.clean_lines (String c t)). apply clean_has_ink.
Qed.

(** The text of a parseable file is blank exactly when every page gives
    some text, all of it white space. *)
Lemma parseable_blank (w : World) (pdf_path : string)
    (texts : list (option string)) :
  parsed w pdf_path = Returned texts ->
  blank (extracted w pdf_path) = forallb white_page texts.
Proof.
  intros H.
  rewrite StripFacts.blank_ink. unfold extracted. rewrite H.
  rewrite join_has_ink by reflexivity.
  now rewrite page_blocks_ink, negb_involutive.
Qed.

Lemma add_stdout_nil s : add_stdout [] s = s.
Proof. destruct s. unfold add_stdout. cbn. now rewrite app_nil_r. Qed.

Lemma add_stdout_twice a b s :
  add_stdout b (add_stdout a s) = add_stdout (a ++ b) s.
Proof. unfold add_stdout. cbn. now rewrite app_assoc. Qed.

Lemma files_loop_eq w names : forall acc s,
  files_loop w names acc s
  = (Returned (acc ++ file_documents w names)%list,
     add_stdout (flat_map (file_lines w) names) s).
Proof.
  induction names as [|name names IH]; intros acc s.
  - cbn. now rewrite app_nil_r, add_stdout_nil.
  - cbn [files_loop file_documents flat_map]. unfold bind at 1. cbn [print].
    unfold bind at 1. rewrite PdfFacts.extract_text_from_pdf_eq.
    unfold file_lines, extracted, blank.
    destruct (parsed w ("documents/" ++ name)) as [texts|e].
    + destruct (Py.truthy (Py.strip (Py.join " " (page_blocks 1 texts))));
        cbn [negb]; rewrite IH; unfold set_stdout, add_stdout;
        cbn [stdout collection uuid_count sent app];
        rewrite <- ?app_assoc; reflexivity.
    + change (Py.truthy (Py.strip "")) with false. cbn [negb].
      rewrite IH. unfold set_stdout, add_stdout.
      cbn [stdout collection uuid_count sent app].
      rewrite <- !app_assoc. reflexivity.
Qed.

Lemma process_documents_eq :
  forall (w : World) (s : Sys),
    process_documents w s
    = (Returned (corpus w),
       mkSys (stdout s ++ flat_map (file_lines w) (pdf_files w))
         (collection s) (uuid_count s) (sent s)).
Proof.
  intros w s. unfold process_documents.
  change (match documents_dir w with
          | Some names => glob_pdf names
          | None => []
          end) with (pdf_files w).
  unfold bind. rewrite files_loop_eq. reflexivity.
Qed.

(** X3.  [process_documents] opens the files matched by [*.pdf] and no
    other, in the order of the listing.  It prints "Processing: <name>" for
    each of them, followed by one "Error extracting text from ..." line
    exactly when that file could not be parsed; it touches neither the
    index, nor the uuid source, nor the network, and always returns. *)
Theorem process_documents_transcript :
  forall (w : World) (s : Sys),
    process_documents w s
    = (Returned (corpus w),
       mkSys (stdout s ++ flat_map (file_lines w) (pdf_files w))
         (collection s) (uuid_count s) (sent s)).
Proof.
  intros w s. unfold process_documents.
  change (match documents_dir w with
          | Some names => glob_pdf names
          | None => []
          end) with (pdf_files w).
  unfold bind. rewrite files_loop_eq. reflexivity.
Qed.

(** What [extract_text_from_pdf] returns for a parseable file. *)
Lemma extract_text_from_pdf_parsed (w : World) (pdf_path : string)
    (texts : list (option string)) (s : Sys) :
  parsed w pdf_path = Returned texts ->
  extract_text_from_pdf w pdf_path s = (Returned (extracted w pdf_path), s).
Proof.
  intros H. rewrite PdfFacts.extract_text_from_pdf_eq.
  unfold extracted. now rewrite H.
Qed.

(** The documents of the files: one for each listed file whose text is not
    blank. *)
Lemma file_documents_In (w : World) (names : list string) (d : Document) :
  In d (file_documents w names) <->
  exists name,
    In name names
    /\ blank (extracted w ("documents/" ++ name)) = false
    /\ d = mkDocument (extracted w ("documents/" ++ name)) name.
Proof.
  unfold file_documents. rewrite in_flat_map. split.
  - intros (name & Hn & Hd). exists name. split; [exact Hn|].
    destruct (blank (extracted w ("documents/" ++ name))); [destruct Hd|].
    destruct Hd as [<-|[]]. now split.
  - intros (name & Hn & Hb & ->). exists name. split; [exact Hn|].
    rewrite Hb. now left.
Qed.

Lemma pdf_files_In (w : World) (names : list string) (name : string) :
  documents_dir w = Some names ->
  In name names -> Py.endswith name ".pdf" = true ->
  In name (pdf_files w).
Proof.
  intros Hd Hn He. unfold pdf_files. rewrite Hd.
  apply filter_In. now split.
Qed.

(** X2.  A parseable PDF of the documents directory with a page that yields
    no text is never left out: [extract_text_from_pdf] returns for it a
    text that is not blank (the placeholder of that page is text), and
    [process_documents] returns a corpus that holds a document with that
    text under the name of the file. *)
Theorem textless_page_keeps_document :
  forall (w : World) (s : Sys) (names : list string) (name : string)
         (texts : list (option string)),
    documents_dir w = Some names ->
    In name names -> Py.endswith name ".pdf" = true ->
    parsed w ("documents/" ++ name) = Returned texts ->
    In None texts \/ In (Some "") texts ->
    exists t docs s',
      extract_text_from_pdf w ("documents/" ++ name) s = (Returned t, s)
      /\ Py.truthy (Py.strip t) = true
      /\ process_documents w s = (Returned docs, s')
      /\ In (mkDocument t name) docs.
Proof.
  intros w s names name texts Hd Hn He Hp Hin.
  pose proof (textless_page_not_blank w _ texts Hp Hin) as Hb.
  exists (extracted w ("documents/" ++ name)). eexists. eexists.
  split; [now apply (extract_text_from_pdf_parsed w _ texts)|].
  split.
  { unfold blank in Hb. now apply negb_false_iff in Hb. }
  split; [apply process_documents_eq|].
  unfold corpus. apply in_or_app. left. apply file_documents_In.
  exists name. split; [now apply (pdf_files_In w names)|]. now split.
Qed.

Lemma textless_page_keeps_document_witness :
  exists t docs s',
    extract_text_from_pdf Examples.w_files "documents/cv.pdf" Examples.start
    = (Returned t, Examples.start)
    /\ Py.truthy (Py.strip t) = true
    /\ process_documents Examples.w_files Examples.start = (Returned docs, s')
    /\ In (mkDocument t "cv.pdf") docs.
Proof.
  apply (textless_page_keeps_document Examples.w_files Examples.start
           ["cv.pdf"; "broken.pdf"; "scan.pdf"; "notes.txt"] "cv.pdf"
           [Some " Hello  world 
 second line "; None]).
  - reflexivity.
  - now left.
  - reflexivity.
  - reflexivity.
  - left. right. now left.
Defined.

(** X21.  Which parseable PDFs of the documents directory are left out of
    the corpus.  For such a file [extract_text_from_pdf] returns a blank
    text exactly when every page yields some text made of white space only
    (or the file has no pages), and the corpus [process_documents] returns
    holds a document under the file's name exactly when that is not so: one
    character that is no white space on one page, or one page without
    text, keeps the file in. *)
Theorem parseable_file_left_out :
  forall (w : World) (s : Sys) (names : list string) (name : string)
         (texts : list (option string)),
    documents_dir w = Some names ->
    In name names -> Py.endswith name ".pdf" = true ->
    parsed w ("documents/" ++ name) = Returned texts ->
    exists t docs s',
      extract_text_from_pdf w ("documents/" ++ name) s = (Returned t, s)
      /\ negb (Py.truthy (Py.strip t)) = forallb white_page texts
      /\ process_documents w s = (Returned docs, s')
      /\ ((exists d, In d docs /\ source d = name)
          <-> forallb white_page texts = false).
Proof.
  intros w s names name texts Hd Hn He Hp.
  pose proof (parseable_blank w _ texts Hp) as Hb.
  exists (extracted w ("documents/" ++ name)). eexists. eexists.
  split; [now apply (extract_text_from_pdf_parsed w _ texts)|].
  split; [exact Hb|].
  split; [apply process_documents_eq|].
  rewrite <- Hb. unfold corpus. split.
  - intros (d & Hin & Hs). apply in_app_or in Hin as [Hin|Hin].
    + apply file_documents_In in Hin as (name' & _ & Hb' & ->).
      cbn [source] in Hs. now subst name'.
    + assert (Hg : source d = "space_facts").
      { cbn in Hin. destruct Hin as [<-|[<-|[<-|[<-|[]]]]]; reflexivity. }
      rewrite Hg in Hs. subst name. vm_compute in He. discriminate He.
  - intros Hnb. exists (mkDocument (extracted w ("documents/" ++ name)) name).
    split; [|reflexivity].
    apply in_or_app. left. apply file_documents_In.
    exists name. split; [now apply (pdf_files_In w names)|]. now split.
Qed.

Lemma parseable_file_left_out_witness :
  exists t docs s',
    extract_text_from_pdf Examples.w_files "documents/scan.pdf" Examples.start
    = (Returned t, Examples.start)
    /\ negb (Py.truthy (Py.strip t)) = true
    /\ process_documents Examples.w_files Examples.start = (Returned docs, s')
    /\ ((exists d, In d docs /\ source d = "scan.pdf") <-> true = false).
Proof.
  apply (parseable_file_left_out Examples.w_files Examples.start
           ["cv.pdf"; "broken.pdf"; "scan.pdf"; "notes.txt"] "scan.pdf"
           [Some "   "]).
  - reflexivity.
  - right. right. now left.
  - reflexivity.
  - reflexivity.
Defined.

End CorpusFacts.

(* ===================================================================== *)
(** ** More about the index *)
(* ===================================================================== *)

Module IndexMore.
Import Pdf Index Spec More IndexFacts.

Lemma valid_documents_all (docs : list Document) :
  Forall (fun d => blank (text d) = false) docs -> valid_documents docs = docs.
Proof.
  induction docs as [|d docs IH]; intros H; [reflexivity|].
  inversion H as [|? ? Hd Hr]; subst.
  cbn [valid_documents filter]. rewrite Hd. cbn [negb].
  f_equal. now apply IH.
Qed.

Lemma corpus_not_blank (w : World) :
  Forall (fun d => blank (text d) = false) (corpus w).
Proof.
  unfold corpus. apply Forall_app. split.
  - apply PdfFacts.file_documents_not_blank.
  - repeat constructor.
Qed.

(** X4.  Ingestion as the program runs it, [process_documents] and then
    [store_documents] on its result (the uuids drawn being distinct, and the
    corpus being no larger than the batch the store takes): whatever the
    index held, it ends up holding one entry per document of the corpus, in
    order, none dropped by the second filter of [store_documents], so at
    least the 4 built-in documents. *)
Theorem ingestion_stores_corpus :
  forall (w : World) (s : Sys),
    distinct (assigned_ids w s (corpus w)) = true ->
    length (corpus w) <= max_batch_size w ->
    exists s',
      bind (process_documents w) (store_documents w) s = (Returned tt, s')
      /\ pairs (collection s')
         = map (fun d => (text d, Some (source d))) (corpus w)
      /\ map entry_id (collection s') = assigned_ids w s (corpus w)
      /\ 4 <= length (collection s').
Proof.
  intros w s Hd Hb.
  pose proof (corpus_not_blank w) as Hv.
  rewrite <- (valid_documents_all _ Hv) in Hb.
  set (s1 := mkSys (stdout s ++ flat_map (file_lines w) (pdf_files w))
               (collection s) (uuid_count s) (sent s)).
  assert (Hids : stored_ids w s1 (corpus w) = assigned_ids w s (corpus w)).
  { unfold stored_ids. apply IndexClaims.keep_valid_all; [|exact Hv].
    unfold assigned_ids. now rewrite length_map, length_seq. }
  assert (Hd1 : distinct (stored_ids w s1 (corpus w)) = true)
    by now rewrite Hids.
  destruct (IndexClaims.store_documents_once w (corpus w) s1 Hd1 Hb)
    as (s' & Hs & Hi & Hp & _).
  exists s'. split.
  - rewrite (bind_returned _ _ _ _ _
               (CorpusFacts.process_documents_eq w s)).
    exact Hs.
  - unfold pairs_of in Hp. rewrite (valid_documents_all _ Hv) in Hp.
    split; [exact Hp|]. split; [now rewrite Hi|].
    rewrite <- (length_map entry_id), Hi, Hids.
    unfold assigned_ids. rewrite length_map, length_seq.
    unfold corpus. rewrite length_app. cbn. lia.
Qed.

Lemma ingestion_stores_corpus_witness :
  exists s',
    bind (process_documents Examples.w_files)
      (store_documents Examples.w_files) Examples.stale
    = (Returned tt, s')
    /\ map entry_id (collection s')
       = ["uuid-0"; "uuid-1"; "uuid-2"; "uuid-3"; "uuid-4"].
Proof.
  assert (Hb : length (corpus Examples.w_files)
               <= max_batch_size Examples.w_files)
    by (apply Nat.leb_le; vm_compute; reflexivity).
  destruct (ingestion_stores_corpus Examples.w_files Examples.stale eq_refl Hb)
    as (s' & H & _ & Hi & _).
  exists s'. split; [exact H|exact Hi].
Defined.

Lemma entries_aligned (docs : list Document) : forall ids : list string,
  length ids = length docs ->
  entries (map text (valid_documents docs)) (keep_valid docs ids)
    (map (fun doc => [("source", source doc)]) (valid_documents docs))
  = map entry_of (keep_valid docs (combine ids docs)).
Proof.
  induction docs as [|d docs IH]; intros [|i ids] H; try discriminate;
    [reflexivity|].
  injection H as H.
  cbn [valid_documents filter keep_valid combine].
  fold (valid_documents docs).
  destruct (blank (text d)); cbn [negb map entries]; rewrite (IH ids H);
    reflexivity.
Qed.

(** X5.  [store_documents] keeps its three parallel lists aligned, for a
    batch the store takes (distinct ids, no more non-blank documents than
    its maximum batch size): each stored entry carries the id drawn at the
    position of its document together with that document's text and source,
    blank documents and the ids drawn for them being left out; the count it
    prints is the number of entries stored. *)
Theorem store_documents_alignment :
  forall (w : World) (docs : list Document) (s : Sys),
    distinct (stored_ids w s docs) = true ->
    length (valid_documents docs) <= max_batch_size w ->
    exists s',
      store_documents w docs s = (Returned tt, s')
      /\ collection s'
         = map entry_of (keep_valid docs (combine (assigned_ids w s docs) docs))
      /\ stdout s'
         = stdout s ++
           [match collection s' with
            | [] => "No valid documents to store."
            | _ => stored_line (length (collection s'))
            end]
      /\ uuid_count s' = uuid_count s + length docs.
Proof.
  intros w docs s Hd Hb. rewrite store_documents_eq. cbv zeta. rewrite Hd.
  apply Nat.ltb_ge in Hb. rewrite Hb.
  assert (Hlen : length (assigned_ids w s docs) = length docs).
  { unfold assigned_ids. now rewrite length_map, length_seq. }
  pose proof (entries_aligned docs (assigned_ids w s docs) Hlen) as He.
  fold (stored_ids w s docs) in He.
  destruct (valid_documents docs) as [|v vdocs] eqn:Ev.
  - eexists. split; [reflexivity|]. cbn [collection stdout uuid_count].
    cbn [map entries] in He. rewrite <- He. now repeat split.
  - eexists. split; [reflexivity|]. cbn [collection stdout uuid_count].
    split; [exact He|]. split; [|reflexivity].
    assert (Hl : length (stored_ids w s docs) = length (v :: vdocs)).
    { rewrite <- Ev. now apply keep_valid_length. }
    destruct (stored_ids w s docs) as [|i ids]; [discriminate|].
    cbn [map entries length]. do 3 f_equal.
    clear -Hl. injection Hl as Hl. revert ids Hl.
    induction vdocs as [|d vdocs IH]; intros [|j ids] Hl; try discriminate;
      [reflexivity|].
    injection Hl as Hl. cbn [map entries length]. f_equal. now apply IH.
Qed.

Lemma store_documents_alignment_witness :
  exists s',
    store_documents Examples.w_files Examples.three_docs Examples.stale
    = (Returned tt, s')
    /\ collection s'
       = [ mkEntry "uuid-0" "alpha" [("source", "a.pdf")];
           mkEntry "uuid-2" "beta" [("source", "space_facts")] ].
Proof.
  assert (Hb : length (valid_documents Examples.three_docs)
               <= max_batch_size Examples.w_files)
    by (apply Nat.leb_le; vm_compute; reflexivity).
  destruct (store_documents_alignment Examples.w_files Examples.three_docs
              Examples.stale eq_refl Hb)
    as (s' & H & Hc & _).
  exists s'. split; [exact H|exact Hc].
Defined.

Lemma sources_of_all (metas : list (list (string * string))) :
  Forall (fun m => assoc "source" m <> None) metas ->
  exists sources,
    sources_of metas = Returned sources
    /\ map Some sources = map (assoc "source") metas.
Proof.
  induction metas as [|m metas IH]; intros H.
  - now exists [].
  - inversion H as [|? ? Hm Hr]; subst.
    destruct (IH Hr) as (sources & Hs & Hmap).
    cbn [sources_of map]. destruct (assoc "source" m) as [src|]; [|easy].
    rewrite Hs. exists (src :: sources). split; [reflexivity|].
    cbn [map]. now rewrite Hmap.
Qed.

Lemma sources_of_missing (metas : list (list (string * string))) :
  Exists (fun m => assoc "source" m = None) metas ->
  sources_of metas = Raised (mkExn KeyError "'source'").
Proof.
  induction metas as [|m metas IH]; intros H; [inversion H|].
  cbn [sources_of]. destruct (assoc "source" m) as [src|] eqn:E;
    [|reflexivity].
  inversion H as [? ? Hm|? ? Hr]; subst; [congruence|].
  now rewrite (IH Hr).
Qed.

(** X6.  [retrieve_documents] reads the first row of the query result and
    leaves the state as it is.  When every metadata of that row has a
    [source], it returns the documents of the row with the sources in the
    same order; when one metadata has no [source], it raises KeyError; when
    the result holds no documents ([None]), it raises TypeError, whatever
    the metadatas are. *)
Theorem retrieve_documents_sources :
  forall (w : World) (query : string) (n : nat) (s : Sys)
         (docs : list string) (rows : list (list string))
         (metas : list (list (string * string)))
         (mrows : list (list (list (string * string)))),
    (collection_query w (collection s) query n
     = Returned (mkQueryResult (Some (docs :: rows)) (Some (metas :: mrows))) ->
     (Forall (fun m => assoc "source" m <> None) metas ->
      exists sources,
        retrieve_documents w query n s = (Returned (docs, sources), s)
        /\ map Some sources = map (assoc "source") metas)
     /\ (Exists (fun m => assoc "source" m = None) metas ->
         retrieve_documents w query n s
         = (Raised (mkExn KeyError "'source'"), s)))
    /\ (forall m,
          collection_query w (collection s) query n
          = Returned (mkQueryResult None m) ->
          retrieve_documents w query n s
          = (Raised
               (mkExn TypeError "'NoneType' object is not subscriptable"),
             s)).
Proof.
  intros w query n s docs rows metas mrows. split.
  - intros H. split.
    + intros Hall. destruct (sources_of_all metas Hall) as (sources & Hs & Hm).
      exists sources. split; [|exact Hm].
      rewrite RagClaims.retrieve_documents_eq, H. cbn. now rewrite Hs.
    + intros Hex. rewrite RagClaims.retrieve_documents_eq, H. cbn.
      now rewrite (sources_of_missing metas Hex).
  - intros m H. now rewrite RagClaims.retrieve_documents_eq, H.
Qed.

Lemma retrieve_documents_sources_witness :
  exists sources,
    retrieve_documents Examples.w_fallback "q" 3 Examples.start
    = (Returned (["first"; "second"], sources), Examples.start)
    /\ map Some sources = [Some "a.pdf"; Some "space_facts"].
Proof.
  apply (proj1 (proj1 (retrieve_documents_sources Examples.w_fallback "q" 3
                         Examples.start ["first"; "second"] []
                         [ [("source", "a.pdf")];
                           [("source", "space_facts")] ] [])
                  eq_refl)).
  repeat constructor; discriminate.
Defined.

End IndexMore.

(* ===================================================================== *)
(** ** More about the generation client *)
(* ===================================================================== *)

Module LlamaMore.
Import Llama Spec More LlamaFacts.

(** A discovery returns the endpoint it binds and makes its trial
    requests; it never raises. *)
Lemma check_llama_server_probes (w : World) (s : Sys) :
  check_llama_server w s = (Returned (bound w), add_sent (probes w) s).
Proof.
  rewrite check_llama_server_eq. unfold bound, probes.
  destruct (answers w native_url); [reflexivity|].
  destruct (down w native_url); [|reflexivity].
  cbn [andb]. now destruct (answers w openai_url).
Qed.

Lemma bound_candidate (w : World) (u : string) :
  bound w = Some u -> u = native_url \/ u = openai_url.
Proof.
  unfold bound. destruct (answers w native_url); [intros [= <-]; now left|].
  destruct (down w native_url && answers w openai_url);
    [intros [= <-]; now right|discriminate].
Qed.

(** [query_llama] in one equation. *)
Lemma query_llama_eq (w : World) (prompt context : string)
    (sources : list string) (s : Sys) :
  query_llama w prompt context sources s =
  match bound w with
  | Some u =>
      (reply u (requests_post w (generation_request u prompt context sources)),
       add_sent (probes w ++ [generation_request u prompt context sources]) s)
  | None => (Returned unreachable_msg, add_sent (probes w) s)
  end.
Proof.
  pose proof (check_llama_server_probes w s) as H.
  destruct (bound w) as [u|].
  - rewrite (query_llama_bound w prompt context sources _ _ _ H).
    now rewrite add_sent_twice.
  - now rewrite (query_llama_unbound w prompt context sources _ _ H).
Qed.

(** The state a call of [query_llama] leaves. *)
Lemma query_llama_state (w : World) (prompt context : string)
    (sources : list string) (s : Sys) :
  exists r l,
    query_llama w prompt context sources s
    = (r, mkSys (stdout s) (collection s) (uuid_count s) (sent s ++ l))
    /\ length l <= 3.
Proof.
  rewrite query_llama_eq. unfold add_sent.
  assert (Hl : length (probes w) <= 2).
  { unfold probes. destruct (answers w native_url); [|destruct (down w _)];
      cbn; lia. }
  destruct (bound w) as [u|]; eexists; eexists; (split; [reflexivity|]);
    rewrite ?length_app; cbn [length]; lia.
Qed.

(** X7.  The requests of one call of [query_llama]: first the trial
    requests of a fresh discovery (the bound endpoint is not kept from one
    call to the next), then the generation request, and that one only when
    an endpoint is bound; at most three requests in all, and none to a URL
    other than the two candidates.  Nothing is printed, and the index and the uuid source are left alone, whether the
    call returns or raises. *)
Theorem query_llama_requests :
  forall (w : World) (prompt context : string) (sources : list string)
         (s : Sys),
    exists r,
      query_llama w prompt context sources s
      = (r, mkSys (stdout s) (collection s) (uuid_count s)
              (sent s ++ probes w ++ generation w prompt context sources))
      /\ (exists rest, probes w = probe_request native_url :: rest)
      /\ length (probes w ++ generation w prompt context sources) <= 3
      /\ Forall (fun q => In (req_url q) endpoints)
           (probes w ++ generation w prompt context sources).
Proof.
  intros w prompt context sources s. rewrite query_llama_eq.
  assert (Hu : Forall (fun q => In (req_url q) endpoints)
                 (probes w ++ generation w prompt context sources)).
  { apply Forall_app. split.
    - unfold probes. destruct (answers w native_url); [|destruct (down w _)];
        repeat (constructor; [simpl; auto|]); constructor.
    - unfold generation. destruct (bound w) as [u|] eqn:Hb; [|constructor].
      constructor; [|constructor]. cbn [generation_request req_url].
      destruct (bound_candidate w u Hb) as [->| ->]; simpl; auto. }
  revert Hu. unfold generation. intros Hu.
  assert (Hp : (exists rest, probes w = probe_request native_url :: rest)
               /\ length (probes w) <= 2).
  { unfold probes. destruct (answers w native_url); [|destruct (down w _)];
      (split; [eexists; reflexivity|cbn; lia]). }
  destruct Hp as [Hp Hl]. unfold add_sent.
  destruct (bound w) as [u|]; rewrite ?app_nil_r in *; eexists;
    (split; [reflexivity|]); (split; [exact Hp|]); (split; [|exact Hu]);
    rewrite ?length_app; cbn [length]; lia.
Qed.

(** X8.  With no candidate answering 200, [query_llama] returns the fixed
    text that tells how to start the server, and sends no generation
    request: only the trial requests were made. *)
Theorem query_llama_no_backend :
  forall (w : World) (prompt context : string) (sources : list string)
         (s : Sys),
    answers w native_url = false ->
    answers w openai_url = false ->
    query_llama w prompt context sources s
    = (Returned "Error: Could not connect to llama.cpp server. Please verify the server is running and the endpoint is correct. Try starting the server with: ./server --port 8000",
       add_sent (probes w) s)
    /\ Forall (fun r => req_timeout r = 5%Z) (probes w).
Proof.
  intros w prompt context sources s H1 H2. rewrite query_llama_eq.
  unfold bound, probes. rewrite H1, H2, andb_false_r.
  split; [reflexivity|].
  destruct (down w native_url); repeat constructor.
Qed.

Lemma query_llama_no_backend_witness :
  query_llama Examples.w_offline "q" "c" ["a.pdf"] Examples.start
  = (Returned unreachable_msg,
     add_sent [probe_request native_url; probe_request openai_url]
       Examples.start).
Proof.
  apply (proj1 (query_llama_no_backend Examples.w_offline "q" "c" ["a.pdf"]
                  Examples.start eq_refl eq_refl)).
Defined.

(** What [query_llama] returns once the body of the response is decoded. *)
Lemma query_llama_reads (w : World) (prompt context : string)
    (sources : list string) (s : Sys) (u : string) (r : Response)
    (result : json) :
  bound w = Some u ->
  requests_post w (generation_request u prompt context sources) = Returned r ->
  (status_code r < 400 \/ 600 <= status_code r)%Z ->
  json_body r = Returned result ->
  query_llama w prompt context sources s
  = (match read_answer u result with
     | Returned answer => Returned answer
     | Raised e => handled e
     end,
     add_sent (probes w ++ [generation_request u prompt context sources]) s).
Proof.
  intros Hb Hr Hs Hj. rewrite query_llama_eq, Hb, Hr. cbn [reply].
  assert (Hst : ((400 <=? status_code r) && (status_code r <? 600))%Z = false).
  { apply andb_false_iff. destruct Hs as [Hs|Hs].
    - left. apply Z.leb_gt. exact Hs.
    - right. apply Z.ltb_ge. exact Hs. }
  now rewrite Hst, Hj.
Qed.

(** X9.  The answer [query_llama] returns, the status of the response being
    no 4xx or 5xx: from the native endpoint, the string under [content];
    from the OpenAI-style endpoint, the string under [text] of the first
    element of [choices] (further choices are not looked at); in both cases
    with the white space at its ends removed. *)
Theorem query_llama_answer :
  forall (w : World) (prompt context : string) (sources : list string)
         (s : Sys) (u : string) (r : Response) (kv : list (string * json))
         (t : string),
    bound w = Some u ->
    requests_post w (generation_request u prompt context sources) = Returned r ->
    (status_code r < 400 \/ 600 <= status_code r)%Z ->
    json_body r = Returned (JObj kv) ->
    (u = native_url /\ assoc "content" kv = Some (JStr t))
    \/ (u = openai_url
        /\ exists choice rest,
             assoc "choices" kv = Some (JArr (JObj choice :: rest))
             /\ assoc "text" choice = Some (JStr t)) ->
    query_llama w prompt context sources s
    = (Returned (Py.strip t),
       add_sent (probes w ++ [generation_request u prompt context sources]) s).
Proof.
  intros w prompt context sources s u r kv t Hb Hr Hs Hj Hcase.
  rewrite (query_llama_reads w prompt context sources s u r _ Hb Hr Hs Hj).
  destruct Hcase as [[-> Hc]|[-> (choice & rest & Hc & Ht)]].
  - unfold read_answer. rewrite LlamaClaims.endswith_native.
    cbn [py_get]. now rewrite Hc.
  - unfold read_answer. rewrite LlamaClaims.endswith_openai.
    cbn [py_in py_getitem]. rewrite Hc. cbn [py_len length Nat.ltb Nat.leb].
    cbn [py_getitem0 py_getitem]. now rewrite Ht.
Qed.

Lemma query_llama_answer_witness :
  query_llama Examples.w_fallback "q" "c" ["a.pdf"] Examples.start
  = (Returned "an answer",
     add_sent
       [ probe_request native_url; probe_request openai_url;
         generation_request openai_url "q" "c" ["a.pdf"] ]
       Examples.start).
Proof.
  apply (query_llama_answer Examples.w_fallback "q" "c" ["a.pdf"]
           Examples.start openai_url
           (mkResponse 200 ""
              (Returned (JObj [("choices",
                                JArr [JObj [("text", JStr " an answer ")]])])))
           [("choices", JArr [JObj [("text", JStr " an answer ")]])]
           " an answer " eq_refl eq_refl).
  - left. reflexivity.
  - reflexivity.
  - right. split; [reflexivity|].
    exists [("text", JStr " an answer ")], []. now split.
Defined.

(** X10.  Bodies that decode to an object but lack the answer, the status
    being no 4xx or 5xx.  From the OpenAI-style endpoint, an object without
    [choices], or whose [choices] is empty, gives the string "Error:
    Unexpected response format from llama.cpp server".  From the native
    endpoint, an object without [content] gives the empty string, which
    nothing tells from an empty answer. *)
Theorem query_llama_missing_answer :
  forall (w : World) (prompt context : string) (sources : list string)
         (s : Sys) (u : string) (r : Response) (kv : list (string * json)),
    bound w = Some u ->
    requests_post w (generation_request u prompt context sources) = Returned r ->
    (status_code r < 400 \/ 600 <= status_code r)%Z ->
    json_body r = Returned (JObj kv) ->
    (u = openai_url ->
     assoc "choices" kv = None
     \/ (exists v, assoc "choices" kv = Some v /\ py_len v = Returned 0) ->
     query_llama w prompt context sources s
     = (Returned "Error: Unexpected response format from llama.cpp server",
        add_sent (probes w ++ [generation_request u prompt context sources]) s))
    /\ (u = native_url ->
        assoc "content" kv = None ->
        query_llama w prompt context sources s
        = (Returned "",
           add_sent (probes w ++ [generation_request u prompt context sources])
             s)).
Proof.
  intros w prompt context sources s u r kv Hb Hr Hs Hj. split.
  - intros -> Hc.
    rewrite (query_llama_reads w prompt context sources s _ r _ Hb Hr Hs Hj).
    unfold read_answer. rewrite LlamaClaims.endswith_openai.
    cbn [py_in py_getitem].
    destruct Hc as [Hc|(v & Hc & Hl)]; rewrite Hc; [reflexivity|].
    now rewrite Hl.
  - intros -> Hc.
    rewrite (query_llama_reads w prompt context sources s _ r _ Hb Hr Hs Hj).
    unfold read_answer. rewrite LlamaClaims.endswith_native.
    cbn [py_get]. now rewrite Hc.
Qed.

Lemma query_llama_missing_answer_witness :
  query_llama w_no_choice "q" "c" ["a.pdf"] Examples.start
  = (Returned "Error: Unexpected response format from llama.cpp server",
     add_sent
       [ probe_request native_url; probe_request openai_url;
         generation_request openai_url "q" "c" ["a.pdf"] ]
       Examples.start).
Proof.
  apply (proj1 (query_llama_missing_answer w_no_choice "q" "c" ["a.pdf"]
                  Examples.start openai_url
                  (mkResponse 200 ""
                     (Returned (JObj [("choices", JArr [])])))
                  [("choices", JArr [])] eq_refl eq_refl
                  (or_introl eq_refl) eq_refl)
           eq_refl).
  right. exists (JArr []). now split.
Defined.

(** X22.  Reading the answer of the native endpoint (lines 174-175): it
    succeeds exactly on an object whose [content] is a string (the answer
    is that string stripped) or is missing (the answer is empty); on every
    other decoded body, a body that is no object or a [content] that is no
    string, it raises AttributeError. *)
Theorem native_answer_domain :
  forall result : json,
    match read_answer native_url result with
    | Returned answer =>
        exists kv,
          result = JObj kv
          /\ ((assoc "content" kv = None /\ answer = "")
              \/ exists t, assoc "content" kv = Some (JStr t)
                           /\ answer = Py.strip t)
    | Raised e => exn_class e = AttributeError
    end.
Proof.
  intros result. unfold read_answer. rewrite LlamaClaims.endswith_native.
  destruct result as [| | | | | |kv]; try reflexivity.
  cbn [py_get]. destruct (assoc "content" kv) as [v|] eqn:E.
  - destruct v as [| | | |t| |]; try reflexivity.
    cbn [py_strip]. exists kv. split; [reflexivity|]. right.
    exists t. now split.
  - cbn [py_strip]. exists kv. split; [reflexivity|]. left. now split.
Qed.

End LlamaMore.

Module FaultsMore.
Import Llama Spec More LlamaFacts.

(** X11.  The failures [query_llama] reports as a string, an endpoint
    being bound: a transport fault of the generation request (refused
    connection, timeout) and a 4xx/5xx status both give "Error querying
    llama.cpp server: <message>"; a body whose decoding fails with a
    [ValueError] that is no [RequestException] gives "Error parsing server
    response: <message>". *)
Theorem query_llama_reported_failures :
  forall (w : World) (prompt context : string) (sources : list string)
         (s : Sys) (u : string),
    bound w = Some u ->
    let request := generation_request u prompt context sources in
    let s' := add_sent (probes w ++ [request]) s in
    (forall e,
        requests_post w request = Raised e ->
        is_RequestException e = true ->
        query_llama w prompt context sources s
        = (Returned ("Error querying llama.cpp server: " ++ exn_msg e)%string,
           s'))
    /\ (forall r,
          requests_post w request = Returned r ->
          (400 <= status_code r < 600)%Z ->
          query_llama w prompt context sources s
          = (Returned ("Error querying llama.cpp server: "
                       ++ http_error_msg r)%string, s'))
    /\ (forall r e,
          requests_post w request = Returned r ->
          (status_code r < 400 \/ 600 <= status_code r)%Z ->
          json_body r = Raised e ->
          is_RequestException e = false ->
          is_ValueError e = true ->
          query_llama w prompt context sources s
          = (Returned ("Error parsing server response: " ++ exn_msg e)%string,
             s')).
Proof.
  intros w prompt context sources s u Hb request s'. subst request s'.
  rewrite LlamaMore.query_llama_eq, Hb. repeat split.
  - intros e He Hc. rewrite He. cbn [reply]. unfold handled. now rewrite Hc.
  - intros r Hr [Hlo Hhi]. rewrite Hr. cbn [reply].
    apply Z.leb_le in Hlo. apply Z.ltb_lt in Hhi. now rewrite Hlo, Hhi.
  - intros r e Hr Hs He Hc Hv. rewrite Hr. cbn [reply].
    assert (Hst : ((400 <=? status_code r) && (status_code r <? 600))%Z
                  = false).
    { apply andb_false_iff. destruct Hs as [Hs|Hs].
      - left. apply Z.leb_gt. exact Hs.
      - right. apply Z.ltb_ge. exact Hs. }
    rewrite Hst, He. unfold handled. now rewrite Hc, Hv.
Qed.

Lemma query_llama_reported_failures_witness :
  query_llama w_timeout "q" "c" ["a.pdf"] Examples.start
  = (Returned "Error querying llama.cpp server: Read timed out. (read timeout=30)",
     add_sent
       [ probe_request native_url;
         generation_request native_url "q" "c" ["a.pdf"] ]
       Examples.start).
Proof.
  apply (proj1 (query_llama_reported_failures w_timeout "q" "c" ["a.pdf"]
                  Examples.start native_url eq_refl)
           (mkExn Timeout "Read timed out. (read timeout=30)"));
    reflexivity.
Defined.

(** X12.  The handler of [RequestException] stands first: when decoding
    the body fails with a fault that is a [RequestException] (as the
    JSON fault of [requests] is, which is a [ValueError] as well), the
    message returned is the "querying" one, not the "parsing" one. *)
Theorem query_llama_handler_order :
  forall (w : World) (prompt context : string) (sources : list string)
         (s : Sys) (u : string) (r : Response) (e : Exn),
    bound w = Some u ->
    requests_post w (generation_request u prompt context sources) = Returned r ->
    (status_code r < 400 \/ 600 <= status_code r)%Z ->
    json_body r = Raised e ->
    is_RequestException e = true ->
    query_llama w prompt context sources s
    = (Returned ("Error querying llama.cpp server: " ++ exn_msg e)%string,
       add_sent (probes w ++ [generation_request u prompt context sources]) s).
Proof.
  intros w prompt context sources s u r e Hb Hr Hs Hj He.
  rewrite LlamaMore.query_llama_eq, Hb, Hr. cbn [reply].
  assert (Hst : ((400 <=? status_code r) && (status_code r <? 600))%Z = false).
  { apply andb_false_iff. destruct Hs as [Hs|Hs].
    - left. apply Z.leb_gt. exact Hs.
    - right. apply Z.ltb_ge. exact Hs. }
  rewrite Hst, Hj. unfold handled. now rewrite He.
Qed.

Lemma query_llama_handler_order_witness :
  query_llama w_not_json "q" "c" ["a.pdf"] Examples.start
  = (Returned "Error querying llama.cpp server: Expecting value: line 1 column 1 (char 0)",
     add_sent
       [ probe_request native_url;
         generation_request native_url "q" "c" ["a.pdf"] ]
       Examples.start).
Proof.
  apply (query_llama_handler_order w_not_json "q" "c" ["a.pdf"] Examples.start
           native_url
           (mkResponse 200 ""
              (Raised (mkExn RequestsJSONDecodeError
                         "Expecting value: line 1 column 1 (char 0)")))
           (mkExn RequestsJSONDecodeError
              "Expecting value: line 1 column 1 (char 0)")
           eq_refl eq_refl);
    [left; reflexivity|reflexivity|reflexivity].
Defined.

Lemma handled_raised (e e' : Exn) :
  handled e = Raised e' ->
  e' = e /\ is_RequestException e = false /\ is_ValueError e = false.
Proof.
  unfold handled. destruct (is_RequestException e); [discriminate|].
  destruct (is_ValueError e); [discriminate|].
  intros [= <-]. now repeat split.
Qed.

(** X13.  What can leave [query_llama] as an exception: only a fault that
    is neither a [RequestException] nor a [ValueError], and only after an
    endpoint was bound and the generation request sent.  It is the fault of
    the request itself, of decoding the body, or of reading the answer out
    of the decoded body; a 4xx/5xx status never leaves as an exception. *)
Theorem query_llama_escapes :
  forall (w : World) (prompt context : string) (sources : list string)
         (s s' : Sys) (e : Exn),
    query_llama w prompt context sources s = (Raised e, s') ->
    is_RequestException e = false /\ is_ValueError e = false
    /\ exists u,
         bound w = Some u
         /\ s' = add_sent
                   (probes w ++ [generation_request u prompt context sources])
                   s
         /\ let o := requests_post w
                       (generation_request u prompt context sources) in
            o = Raised e
            \/ exists r,
                 o = Returned r
                 /\ (status_code r < 400 \/ 600 <= status_code r)%Z
                 /\ (json_body r = Raised e
                     \/ exists result,
                          json_body r = Returned result
                          /\ read_answer u result = Raised e).
Proof.
  intros w prompt context sources s s' e.
  rewrite LlamaMore.query_llama_eq.
  destruct (bound w) as [u|]; [|discriminate].
  intros [= Hr <-].
  destruct (requests_post w _) as [r|e0] eqn:Ho; cbn [reply] in Hr.
  - destruct ((400 <=? status_code r) && (status_code r <? 600))%Z eqn:Hst.
    { discriminate Hr. }
    assert (Hs : (status_code r < 400 \/ 600 <= status_code r)%Z).
    { apply andb_false_iff in Hst as [H|H].
      - left. now apply Z.leb_gt.
      - right. now apply Z.ltb_ge. }
    destruct (json_body r) as [result|e1] eqn:Hj.
    + destruct (read_answer u result) as [a|e2] eqn:Ha; [discriminate|].
      apply handled_raised in Hr as (-> & H1 & H2).
      split; [exact H1|]. split; [exact H2|].
      exists u. split; [reflexivity|]. split; [reflexivity|].
      cbv zeta. right. exists r. split; [exact Ho|]. split; [exact Hs|].
      right. exists result. now split.
    + apply handled_raised in Hr as (-> & H1 & H2).
      split; [exact H1|]. split; [exact H2|].
      exists u. split; [reflexivity|]. split; [reflexivity|].
      cbv zeta. right. exists r. split; [exact Ho|]. split; [exact Hs|].
      now left.
  - apply handled_raised in Hr as (-> & H1 & H2).
    split; [exact H1|]. split; [exact H2|].
    exists u. split; [reflexivity|]. split; [reflexivity|].
    cbv zeta. left. exact Ho.
Qed.

Lemma query_llama_escapes_witness :
  is_RequestException (mkExn KeyError "'text'") = false
  /\ is_ValueError (mkExn KeyError "'text'") = false.
Proof.
  destruct (query_llama_escapes Examples.w_no_text "q" "c" ["a.pdf"]
              Examples.start
              (add_sent
                 [ probe_request native_url; probe_request openai_url;
                   generation_request openai_url "q" "c" ["a.pdf"] ]
                 Examples.start)
              (mkExn KeyError "'text'") eq_refl)
    as (H1 & H2 & _).
  exact (conj H1 H2).
Defined.

End FaultsMore.

(* ===================================================================== *)
(** ** More about the pipeline and the interactive program *)
(* ===================================================================== *)

Module RagMore.
Import Index Llama Rag Spec More.

(** The state a call of [rag_pipeline] leaves. *)
Lemma rag_pipeline_state (w : World) (query : string) (s : Sys) :
  exists r l,
    rag_pipeline w query s
    = (r, mkSys (stdout s) (collection s) (uuid_count s) (sent s ++ l))
    /\ length l <= 3.
Proof.
  pose proof (RagClaims.retrieve_documents_eq w query 3 s) as Hr.
  unfold rag_pipeline. unfold bind at 1.
  match type of Hr with
  | _ = (?o, _) => destruct o as [[docs sources]|e]
  end; rewrite Hr.
  - rewrite RagClaims.bind_ret_r.
    apply LlamaMore.query_llama_state.
  - exists (Raised e), []. split; [|cbn; lia].
    destruct s. cbn. now rewrite app_nil_r.
Qed.

(** X14.  Answering a question is read-only on the index: whether
    [rag_pipeline] returns or raises, the entries of the index, the uuid
    source and the standard output are as before, and at most three HTTP
    requests were made; when the retrieval raises, none was made. *)
Theorem rag_pipeline_read_only :
  forall (w : World) (query : string) (s : Sys),
    exists r l,
      rag_pipeline w query s
      = (r, mkSys (stdout s) (collection s) (uuid_count s) (sent s ++ l))
      /\ length l <= 3
      /\ (forall e, fst (retrieve_documents w query 3 s) = Raised e ->
                    r = Raised e /\ l = []).
Proof.
  intros w query s. unfold rag_pipeline. unfold bind at 1.
  rewrite RagClaims.retrieve_documents_eq.
  match goal with
  | |- context [(?o, s)] => destruct o as [[docs sources]|e] eqn:Ho
  end.
  - rewrite RagClaims.bind_ret_r.
    destruct (LlamaMore.query_llama_state w query (Py.join " " docs)
                sources s) as (r & l & Hq & Hl).
    exists r, l. split; [exact Hq|]. split; [exact Hl|].
    cbn [fst]. discriminate.
  - exists (Raised e), []. split.
    + destruct s. cbn. now rewrite app_nil_r.
    + split; [cbn; lia|]. cbn [fst]. intros e' [= <-]. now split.
Qed.

Lemma rag_pipeline_read_only_witness :
  exists r l,
    rag_pipeline Examples.w_index_fault "q" Examples.stale
    = (r, mkSys (stdout Examples.stale) (collection Examples.stale)
            (uuid_count Examples.stale) (sent Examples.stale ++ l))
    /\ r = Raised (mkExn OtherException "index unavailable") /\ l = [].
Proof.
  destruct (rag_pipeline_read_only Examples.w_index_fault "q" Examples.stale)
    as (r & l & H & _ & Hf).
  exists r, l. split; [exact H|].
  apply (Hf (mkExn OtherException "index unavailable")). reflexivity.
Defined.

End RagMore.

Module MainFacts.
Import Index Llama Rag Spec More Main.

Lemma print_eq (line : string) (s : Sys) :
  print line s = (Returned tt, add_stdout [line] s).
Proof. reflexivity. Qed.

Lemma report_eq (e : Exn) (s : Sys) :
  report e s = (Returned tt, add_stdout (report_lines e) s).
Proof.
  unfold report, bind. rewrite !print_eq.
  now rewrite CorpusFacts.add_stdout_twice.
Qed.

(** One turn of the loop on a line that is no quit word. *)
Lemma question_loop_line (w : World) (query : string) (rest : list Input)
    (s s2 : Sys) (o : outcome string) :
  is_quit query = false ->
  rag_pipeline w query
    (add_stdout [input_prompt; (Py.nl ++ "Processing query...")%string] s)
  = (o, s2) ->
  question_loop w (Line query :: rest) s
  = question_loop w rest
      (add_stdout
         match o with
         | Returned answer => [(Py.nl ++ "Response: " ++ answer)%string]
         | Raised e => report_lines e
         end s2).
Proof.
  intros Hq Hr. cbn [question_loop]. unfold bind at 1. rewrite print_eq.
  fold (is_quit query). rewrite Hq.
  unfold bind at 1, try_except, bind at 1. rewrite print_eq.
  rewrite CorpusFacts.add_stdout_twice. cbn [app].
  unfold bind at 1. rewrite Hr.
  destruct o as [answer|e].
  - now rewrite print_eq.
  - cbn [is_Exception]. now rewrite report_eq.
Qed.

(** X15.  A fault of [rag_pipeline] does not end the question loop: the
    handler prints "Error: <message>" and the hint about the server, and
    the loop goes on with the next input; an answer is printed after
    "Response:". *)
Theorem question_loop_turn :
  forall (w : World) (query : string) (rest : list Input) (s s2 : Sys),
    is_quit query = false ->
    let asked :=
      add_stdout [input_prompt; (Py.nl ++ "Processing query...")%string] s in
    (forall e,
        rag_pipeline w query asked = (Raised e, s2) ->
        question_loop w (Line query :: rest) s
        = question_loop w rest
            (add_stdout
               [ (Py.nl ++ "Error: " ++ exn_msg e)%string;
                 "Please make sure the llama.cpp server is running and try again." ]
               s2))
    /\ (forall answer,
          rag_pipeline w query asked = (Returned answer, s2) ->
          question_loop w (Line query :: rest) s
          = question_loop w rest
              (add_stdout [(Py.nl ++ "Response: " ++ answer)%string] s2)).
Proof.
  intros w query rest s s2 Hq asked. split.
  - intros e H. exact (question_loop_line w query rest s s2 _ Hq H).
  - intros answer H. exact (question_loop_line w query rest s s2 _ Hq H).
Qed.

Lemma question_loop_turn_witness :
  question_loop Examples.w_index_fault [Line "When did Apollo 11 land?"]
    Examples.start
  = (Returned AtPrompt,
     add_stdout
       [ input_prompt; (Py.nl ++ "Processing query...")%string;
         (Py.nl ++ "Error: index unavailable")%string;
         "Please make sure the llama.cpp server is running and try again." ]
       Examples.start).
Proof.
  rewrite (proj1 (question_loop_turn Examples.w_index_fault
                    "When did Apollo 11 land?" [] Examples.start
                    (add_stdout
                       [input_prompt; (Py.nl ++ "Processing query...")%string]
                       Examples.start)
                    eq_refl)
             (mkExn OtherException "index unavailable") eq_refl).
  reflexivity.
Defined.

Lemma lower_char_idem (c : ascii) : lower_char (lower_char c) = lower_char c.
Proof. destruct c as [[] [] [] [] [] [] [] []]; reflexivity. Qed.

Lemma lower_idem (s : string) : lower (lower s) = lower s.
Proof.
  induction s as [|c r IH]; [reflexivity|].
  cbn [lower]. now rewrite lower_char_idem, IH.
Qed.

(** X16.  A line that is "quit", "exit" or "q" once put in lower case ends
    the loop at once: nothing is asked of the index or of the backend,
    nothing but the prompt is printed, and the inputs after it are not
    read.  The test is on the whole line: its lower-case form is what
    counts (so the test does not change when the line is put in lower case
    first), and nothing is stripped from it. *)
Theorem question_loop_quit :
  forall (w : World) (query : string) (rest : list Input) (s : Sys),
    (is_quit query = true <->
     lower query = "quit" \/ lower query = "exit" \/ lower query = "q")
    /\ is_quit (lower query) = is_quit query
    /\ (is_quit query = true ->
        question_loop w (Line query :: rest) s
        = (Returned Left, add_stdout [input_prompt] s)).
Proof.
  intros w query rest s. split; [|split].
  - unfold is_quit, quit_words. rewrite IndexFacts.mem_In. cbn [In].
    intuition congruence.
  - unfold is_quit. now rewrite lower_idem.
  - intros H. cbn [question_loop]. unfold bind. rewrite print_eq.
    fold (is_quit query). now rewrite H.
Qed.

Lemma question_loop_quit_witness :
  question_loop Examples.w_index_fault [Line "QuIt"; Line "never read"]
    Examples.start
  = (Returned Left, add_stdout [input_prompt] Examples.start).
Proof.
  apply (proj2 (proj2 (question_loop_quit Examples.w_index_fault "QuIt"
                         [Line "never read"] Examples.start))).
  reflexivity.
Defined.

Lemma question_loop_total :
  forall (w : World) (inputs : list Input) (s : Sys),
    exists r s',
      question_loop w inputs s = (Returned r, s')
      /\ (r = Left <-> existsb leaves inputs = true)
      /\ collection s' = collection s
      /\ uuid_count s' = uuid_count s.
Proof.
  intros w inputs. induction inputs as [|event rest IH]; intros s.
  - exists AtPrompt, s. cbn. repeat split; discriminate.
  - destruct event as [query| |e|query progress].
    + destruct (is_quit query) eqn:Hq.
      * exists Left, (add_stdout [input_prompt] s). split.
        { cbn [question_loop]. unfold bind. rewrite print_eq.
          fold (is_quit query). now rewrite Hq. }
        cbn [existsb leaves]. rewrite Hq. now repeat split.
      * destruct (RagMore.rag_pipeline_state w query
                    (add_stdout
                       [input_prompt; (Py.nl ++ "Processing query...")%string]
                       s)) as (o & l & Hr & _).
        rewrite (question_loop_line w query rest s _ o Hq Hr).
        match goal with
        | |- context [question_loop w rest ?st] =>
            destruct (IH st) as (r & s' & H & Hl & Hc & Hu)
        end.
        exists r, s'. split; [exact H|].
        cbn [existsb leaves]. rewrite Hq. cbn [orb].
        split; [exact Hl|]. split; [exact Hc|exact Hu].
    + exists Left,
        (add_stdout [input_prompt; (Py.nl ++ "Exiting...")%string] s).
      split.
      { cbn [question_loop]. unfold leave, bind. rewrite !print_eq.
        now rewrite CorpusFacts.add_stdout_twice. }
      now repeat split.
    + cbn [question_loop]. unfold bind at 1. rewrite print_eq.
      unfold bind at 1. rewrite report_eq.
      match goal with
      | |- context [question_loop w rest ?st] =>
          destruct (IH st) as (r & s' & H & Hl & Hc & Hu)
      end.
      exists r, s'. split; [exact H|].
      cbn [existsb leaves orb]. split; [exact Hl|]. split; [exact Hc|exact Hu].
    + exists Left. cbn [question_loop]. destruct progress as [|k].
      * eexists. split.
        { unfold leave, bind. rewrite !print_eq. reflexivity. }
        now repeat split.
      * fold (is_quit query). destruct (is_quit query).
        { eexists. split; [unfold bind; rewrite print_eq; reflexivity|].
          now repeat split. }
        eexists. split.
        { unfold leave, cut_short, bind. rewrite !print_eq. reflexivity. }
        now repeat split.
Qed.

(** X17.  The question loop never raises, whatever the index and the
    backend do.  It is left exactly when one of the turns meets a
    [KeyboardInterrupt], at the prompt or while the line is answered, or
    reads a quit word; no fault of [input] or of the pipeline ends it.  It
    never changes the entries of the index. *)
Theorem question_loop_never_raises :
  forall (w : World) (inputs : list Input) (s : Sys),
    exists r s',
      question_loop w inputs s = (Returned r, s')
      /\ (r = Left <-> existsb leaves inputs = true)
      /\ collection s' = collection s.
Proof.
  intros w inputs s.
  destruct (question_loop_total w inputs s) as (r & s' & H & Hl & Hc & _).
  exists r, s'. split; [exact H|]. split; [exact Hl|exact Hc].
Qed.

Lemma question_loop_never_raises_witness :
  exists s',
    question_loop Examples.w_no_text
      [Line "What is in the CVs?"; InputFault (mkExn OtherException "EOF");
       Interrupted "And the skills?" 2; Line "never read"]
      Examples.stale
    = (Returned Left, s')
    /\ collection s' = collection Examples.stale.
Proof.
  destruct (question_loop_never_raises Examples.w_no_text
              [Line "What is in the CVs?";
               InputFault (mkExn OtherException "EOF");
               Interrupted "And the skills?" 2; Line "never read"]
              Examples.stale)
    as (r & s' & H & Hl & Hc).
  exists s'. rewrite (proj2 Hl eq_refl) in H. split; [exact H|exact Hc].
Defined.

(** X18.  A fault of [input] itself, such as the [EOFError] of a closed
    standard input, is caught like any other: the loop prints the two error
    lines and prompts again.  On an input that only faults the loop never
    stops. *)
Theorem question_loop_input_faults :
  forall (w : World) (faults : list Exn) (s : Sys),
    question_loop w (map InputFault faults) s
    = (Returned AtPrompt,
       add_stdout
         (flat_map (fun e => input_prompt :: report_lines e) faults) s).
Proof.
  intros w faults. induction faults as [|e faults IH]; intros s.
  - cbn. now rewrite CorpusFacts.add_stdout_nil.
  - cbn [map question_loop flat_map]. unfold bind at 1. rewrite print_eq.
    unfold bind at 1. rewrite report_eq, IH.
    now rewrite !CorpusFacts.add_stdout_twice.
Qed.

End MainFacts.

Module StartupFacts.
Import Pdf Index Llama Spec More Main IndexFacts.

Lemma found_bound (w : World) :
  found (bound w) = match bound w with Some _ => true | None => false end.
Proof.
  destruct (bound w) as [u|] eqn:E; [|reflexivity].
  now destruct (LlamaMore.bound_candidate w u E) as [->| ->].
Qed.

Lemma warn_eq (s : Sys) : warn s = (Returned tt, add_stdout warning_lines s).
Proof.
  unfold warn, bind. rewrite !MainFacts.print_eq.
  now rewrite !CorpusFacts.add_stdout_twice.
Qed.

Lemma ready_eq (s : Sys) : ready s = (Returned tt, add_stdout ready_lines s).
Proof.
  unfold ready, bind. rewrite !MainFacts.print_eq.
  now rewrite !CorpusFacts.add_stdout_twice.
Qed.

(** Storing the corpus, which holds no blank document. *)
Lemma store_corpus (w : World) (s : Sys) :
  distinct (assigned_ids w s (corpus w)) = true ->
  length (corpus w) <= max_batch_size w ->
  store_documents w (corpus w) s
  = (Returned tt,
     mkSys (stdout s ++ [stored_line (length (corpus w))])
       (entries (map text (corpus w)) (assigned_ids w s (corpus w))
          (map (fun doc => [("source", source doc)]) (corpus w)))
       (uuid_count s + length (corpus w)) (sent s)).
Proof.
  intros Hd Hb. rewrite store_documents_eq. cbv zeta.
  pose proof (IndexMore.corpus_not_blank w) as Hv.
  assert (Hids : stored_ids w s (corpus w) = assigned_ids w s (corpus w)).
  { unfold stored_ids. apply IndexClaims.keep_valid_all; [|exact Hv].
    unfold assigned_ids. now rewrite length_map, length_seq. }
  rewrite Hids, Hd, (IndexMore.valid_documents_all _ Hv).
  apply Nat.ltb_ge in Hb. rewrite Hb.
  destruct (corpus w) as [|d docs] eqn:E; [|reflexivity].
  apply (f_equal (@length _)) in E. unfold corpus in E.
  rewrite length_app in E. cbn in E. lia.
Qed.

Lemma startup_state :
  forall (w : World) (s : Sys),
    distinct (assigned_ids w s (corpus w)) = true ->
    length (corpus w) <= max_batch_size w ->
    exists s',
      startup w s = (Returned tt, s')
      /\ stdout s'
         = stdout s
           ++ ["Starting RAG application..."]
           ++ match bound w with Some _ => [] | None => warning_lines end
           ++ ["Processing documents..."]
           ++ flat_map (file_lines w) (pdf_files w)
           ++ [stored_line (length (corpus w))]
           ++ ready_lines
      /\ sent s' = sent s ++ probes w
      /\ pairs (collection s')
         = map (fun d => (text d, Some (source d))) (corpus w)
      /\ map entry_id (collection s') = assigned_ids w s (corpus w)
      /\ uuid_count s' = uuid_count s + length (corpus w).
Proof.
  intros w s Hd Hb. unfold startup.
  unfold bind at 1. rewrite MainFacts.print_eq.
  unfold bind at 1. rewrite LlamaMore.check_llama_server_probes.
  rewrite found_bound.
  set (W := match bound w with Some _ => [] | None => warning_lines end).
  assert (HW : forall st,
             (if match bound w with Some _ => true | None => false end
              then ret tt else warn) st
             = (Returned tt, add_stdout W st)).
  { intros st. subst W. destruct (bound w).
    - now rewrite CorpusFacts.add_stdout_nil.
    - apply warn_eq. }
  unfold bind at 1. rewrite HW.
  unfold bind at 1. rewrite MainFacts.print_eq.
  unfold bind at 1. rewrite CorpusFacts.process_documents_eq.
  unfold bind at 1. rewrite store_corpus by assumption.
  rewrite ready_eq.
  eexists. split; [reflexivity|].
  assert (Hlen : length (assigned_ids w s (corpus w)) = length (corpus w)).
  { unfold assigned_ids. now rewrite length_map, length_seq. }
  cbn [add_stdout add_sent stdout collection uuid_count sent].
  split; [now rewrite <- !app_assoc|].
  split; [reflexivity|].
  split; [now apply entries_pairs|].
  split; [now apply entries_ids|reflexivity].
Qed.

(** X19.  Start-up ingests whether or not a backend answers.  After the
    greeting and one discovery, it prints the four warning lines exactly
    when no endpoint was bound, then processes the documents and stores the
    corpus (the uuids drawn being distinct and the corpus no larger than
    the batch the store takes), prints the number of documents
    stored and the five lines that invite questions.  The index then holds
    one entry per document of the corpus, and the only requests made are
    the trial requests. *)
Theorem startup_ingests :
  forall (w : World) (s : Sys),
    distinct (assigned_ids w s (corpus w)) = true ->
    length (corpus w) <= max_batch_size w ->
    exists s',
      startup w s = (Returned tt, s')
      /\ stdout s'
         = stdout s
           ++ ["Starting RAG application..."]
           ++ match bound w with Some _ => [] | None => warning_lines end
           ++ ["Processing documents..."]
           ++ flat_map (file_lines w) (pdf_files w)
           ++ [stored_line (length (corpus w))]
           ++ ready_lines
      /\ sent s' = sent s ++ probes w
      /\ pairs (collection s')
         = map (fun d => (text d, Some (source d))) (corpus w)
      /\ map entry_id (collection s') = assigned_ids w s (corpus w).
Proof.
  intros w s Hd Hb.
  destruct (startup_state w s Hd Hb) as (s' & H & Ho & Hs & Hp & Hi & _).
  exists s'. split; [exact H|]. split; [exact Ho|]. split; [exact Hs|].
  split; [exact Hp|exact Hi].
Qed.

Lemma startup_ingests_witness :
  exists s',
    startup Examples.w_no_dir Examples.stale = (Returned tt, s')
    /\ length (stdout s') = 12
    /\ map entry_id (collection s') = ["uuid-0"; "uuid-1"; "uuid-2"; "uuid-3"].
Proof.
  assert (Hb : length (corpus Examples.w_no_dir)
               <= max_batch_size Examples.w_no_dir)
    by (apply Nat.leb_le; vm_compute; reflexivity).
  destruct (startup_ingests Examples.w_no_dir Examples.stale eq_refl Hb)
    as (s' & H & Ho & _ & _ & Hi).
  exists s'. split; [exact H|]. split; [now rewrite Ho|exact Hi].
Defined.

(** X20.  The whole session, for a corpus the store takes in one batch,
    distinct uuids, and no interrupt before the question loop is entered.
    The program does not raise: it stops exactly when a turn of the
    question loop meets a [KeyboardInterrupt], at the prompt or while the
    line is answered, or reads a quit word; and whatever was asked in
    between, the index still holds the entries stored at start-up, one per
    document of the corpus. *)
Theorem main_session :
  forall (w : World) (inputs : list Input) (s : Sys),
    distinct (assigned_ids w s (corpus w)) = true ->
    length (corpus w) <= max_batch_size w ->
    exists r s',
      main w inputs s = (Returned r, s')
      /\ (r = Left <-> existsb leaves inputs = true)
      /\ pairs (collection s')
         = map (fun d => (text d, Some (source d))) (corpus w)
      /\ map entry_id (collection s') = assigned_ids w s (corpus w).
Proof.
  intros w inputs s Hd Hb.
  destruct (startup_state w s Hd Hb) as (s1 & H1 & _ & _ & Hp & Hi & _).
  destruct (MainFacts.question_loop_total w inputs s1)
    as (r & s' & H2 & Hl & Hc & _).
  exists r, s'. unfold main. rewrite (bind_returned _ _ _ _ _ H1).
  split; [exact H2|]. split; [exact Hl|]. now rewrite Hc.
Qed.

Lemma main_session_witness :
  exists r s',
    main Examples.w_no_dir
      [Line "When did Apollo 11 land?"; InputFault (mkExn OtherException "EOF");
       Line "Q"; Line "never read"]
      Examples.stale
    = (Returned r, s')
    /\ r = Left
    /\ map entry_id (collection s') = ["uuid-0"; "uuid-1"; "uuid-2"; "uuid-3"].
Proof.
  assert (Hb : length (corpus Examples.w_no_dir)
               <= max_batch_size Examples.w_no_dir)
    by (apply Nat.leb_le; vm_compute; reflexivity).
  destruct (main_session Examples.w_no_dir
              [Line "When did Apollo 11 land?";
               InputFault (mkExn OtherException "EOF");
               Line "Q"; Line "never read"]
              Examples.stale eq_refl Hb)
    as (r & s' & H & Hl & _ & Hi).
  exists r, s'. split; [exact H|]. split; [|exact Hi].
  apply Hl. reflexivity.
Defined.

End StartupFacts.
